(** * MinION-desktop: a shallow embedding of [basecall.py]

    The script watches a directory for new fast5 files, basecalls them in
    batches with an external tool, merges the tool's per-batch outputs into
    growing files, and prints statistics.  This development embeds the batch
    selection, the ledger, the result merger, the statistics functions and
    the main loop, function by function, and states the properties of the
    specification about them.

    Conventions of the embedding:
    - a Python [int] is a [Z]; a Python [str] is a [string] whose characters
      are the code points U+0000..U+00FF;
    - a Python exception is a constructor of [exn], and a function that may
      raise returns a [result];
    - a text file is the list of its lines as the line iterator of Python
      yields them; a file that does not exist is [None];
    - a [pathlib] path is the list of its components below the root;
    - a Python [float] that is computed from integers is either the rational
      number it denotes together with the rounding that produced it
      ([float_of_int]), or, in the main loop, a primitive binary64 float. *)

From Stdlib Require Import ZArith QArith Qround Floats String Ascii List Lia.
From stdpp Require Import base option list gmap sets strings sorting pretty.

Set Warnings "-clear-no-such-hyp".

Local Open Scope string_scope.
Local Open Scope list_scope.
Local Open Scope Z_scope.

(** ** Exceptions *)

Inductive exn : Type :=
| KeyError (key : string)
| ValueError
| IndexError
| ZeroDivisionError
| OverflowError
| FileNotFoundError
| CalledProcessError (return_code : Z).

Inductive result (A : Type) : Type :=
| Ok (a : A)
| Raise (e : exn).
Arguments Ok {A} a.
Arguments Raise {A} e.

#[global] Instance result_ret : MRet result := fun A a => Ok a.
#[global] Instance result_bind : MBind result := fun A B f m =>
  match m with
  | Ok a => f a
  | Raise e => Raise e
  end.
#[global] Instance result_fmap : FMap result := fun A B f m =>
  match m with
  | Ok a => Ok (f a)
  | Raise e => Raise e
  end.

(** [[f(x) for x in l]] where [f] may raise: the first exception wins. *)
Fixpoint mapR {A B} (f : A -> result B) (l : list A) : result (list B) :=
  match l with
  | [] => Ok []
  | x :: l' => y ← f x; ys ← mapR f l'; Ok (y :: ys)
  end.

(** ** Strings *)

Definition tab : ascii := ascii_of_nat 9.
Definition newline : string := String (ascii_of_nat 10) EmptyString.

(** [str.isspace] on the code points below 256. *)
Definition py_isspace (c : ascii) : bool :=
  let n := N_of_ascii c in
  ((9 <=? n) && (n <=? 13) || (28 <=? n) && (n <=? 32)
   || (n =? 133) || (n =? 160))%N.

Fixpoint lstrip (s : string) : string :=
  match s with
  | String c s' => if py_isspace c then lstrip s' else s
  | EmptyString => EmptyString
  end.

Fixpoint rstrip (s : string) : string :=
  match s with
  | String c s' =>
      match rstrip s' with
      | EmptyString => if py_isspace c then EmptyString else String c EmptyString
      | r => String c r
      end
  | EmptyString => EmptyString
  end.

(** [s.strip()] *)
Definition strip (s : string) : string := rstrip (lstrip s).

(** [s.startswith(p)] *)
Definition startswith (s p : string) : bool := String.prefix p s.

(** [s.split(sep)] for a one-character separator: never empty. *)
Fixpoint py_split (sep : ascii) (s : string) : list string :=
  match s with
  | EmptyString => [EmptyString]
  | String c s' =>
      if Ascii.eqb c sep then EmptyString :: py_split sep s'
      else match py_split sep s' with
           | h :: t => String c h :: t
           | [] => [String c EmptyString]
           end
  end.

Definition digit_of_ascii (c : ascii) : option Z :=
  let n := Z.of_N (N_of_ascii c) in
  if (48 <=? n) && (n <=? 57) then Some (n - 48) else None.

(** The digits of [int(s)]: decimal digits, single underscores between
    digits allowed.  [acc] is the value read so far, [prev] tells whether the
    previous character was a digit. *)
Fixpoint int_digits (acc : Z) (prev : bool) (s : string) : option Z :=
  match s with
  | EmptyString => if prev then Some acc else None
  | String c s' =>
      match digit_of_ascii c with
      | Some d => int_digits (10 * acc + d) true s'
      | None =>
          if Ascii.eqb c "_" && prev then
            match s' with
            | String c' _ => if digit_of_ascii c' is Some _
                             then int_digits acc false s' else None
            | EmptyString => None
            end
          else None
      end
  end.

(** [int(s)] on a string: surrounding white space, an optional sign, then
    digits; [ValueError] otherwise. *)
Definition py_int (s : string) : result Z :=
  let body (t : string) : option Z :=
    match t with
    | String c _ => if digit_of_ascii c is Some _
                    then int_digits 0 false t else None
    | EmptyString => None
    end in
  let signed :=
    match strip s with
    | String "-" t => Z.opp <$> body t
    | String "+" t => body t
    | t => body t
    end in
  match signed with
  | Some n => Ok n
  | None => Raise ValueError
  end.

(** ** Integers as floats *)

(** The binary64 number nearest to the integer [n], ties to even, as the
    integer it denotes; what the conversion of an [int] to a [float] gives
    when it does not overflow. *)
Definition round_to_double (n : Z) : Z :=
  let a := Z.abs n in
  let e := Z.log2 a - 52 in
  if e <=? 0 then n
  else
    let q := a / 2 ^ e in
    let r := a mod 2 ^ e in
    let h := 2 ^ (e - 1) in
    let q' := if r <? h then q
              else if h <? r then q + 1
              else if Z.even q then q else q + 1 in
    Z.sgn n * (q' * 2 ^ e).

(** The conversion of an [int] operand in [int * float] or [float / int]:
    [OverflowError] when the rounded value is not a finite binary64. *)
Definition float_of_int (n : Z) : result Z :=
  let f := round_to_double n in
  if Z.abs f <? 2 ^ 1024 then Ok f else Raise OverflowError.

(** The integer that a finite binary64 number of the Standard Library's
    specification of floats denotes, when it is an integer. *)
Definition sf_value (f : spec_float) : option Z :=
  match f with
  | S754_zero _ => Some 0
  | S754_finite s m e =>
      let v := if s then Z.neg m else Z.pos m in
      if 0 <=? e then Some (v * 2 ^ e)
      else if v mod 2 ^ (- e) =? 0 then Some (v / 2 ^ (- e)) else None
  | _ => None
  end.

(** ** N50 *)

(** [sum(l)] *)
Definition py_sum (l : list Z) : Z := foldr Z.add 0 l.

(** [sorted(l, reverse=True)] on integers. *)
Definition sorted_reverse (l : list Z) : list Z := merge_sort Z.ge l.

(** The [for] loop of [get_n50]; falls through to [return 0]. *)
Fixpoint n50_loop (target_bases : Q) (bases_so_far : Z) (l : list Z) : Z :=
  match l with
  | [] => 0
  | sequence_length :: l' =>
      let bases_so_far := bases_so_far + sequence_length in
      if Qle_bool target_bases (inject_Z bases_so_far) then sequence_length
      else n50_loop target_bases bases_so_far l'
  end.

Definition get_n50 (sequence_lengths : list Z) : result Z :=
  let sequence_lengths := sorted_reverse sequence_lengths in
  let total_bases := py_sum sequence_lengths in
  f ← float_of_int total_bases;
  let target_bases := (inject_Z f * (1 # 2))%Q in
  Ok (n50_loop target_bases 0 sequence_lengths).

(** ** Paths *)

(** A resolved path: its components below the root. *)
Definition path : Type := list string.

(** [f.name]: the final component, the empty string for the root. *)
Definition name (f : path) : string := default "" (last f).

(** The order of [pathlib] paths: the lists of components compared as Python
    compares lists, each component as Python compares strings. *)
Fixpoint path_leb (p q : path) : bool :=
  match p, q with
  | [], _ => true
  | _ :: _, [] => false
  | x :: p', y :: q' => if String.eqb x y then path_leb p' q' else String.ltb x y
  end.

Definition path_le (p q : path) : Prop := path_leb p q = true.

#[global] Instance path_le_dec : RelDecision path_le.
Proof. intros p q. unfold path_le. apply _. Defined.

(** [sorted(fs)] on paths. *)
Definition sorted_paths (fs : list path) : list path := merge_sort path_le fs.

(** [l[:n]] *)
Definition slice_to {A} (n : Z) (l : list A) : list A :=
  if 0 <=? n then take (Z.to_nat n) l
  else take (length l - Z.to_nat (- n)) l.

(** ** The output directory *)

(** The files of the output directory that the script reads or writes: the
    ledger [basecalled_filenames], the merged [sequencing_summary.txt], the
    merged fastq files by file name, and the two directories of copied
    files by file name. *)
Record out_dir : Type := {
  basecalled_filenames : option (list string);
  sequencing_summary : option (list string);
  fastq : gmap string (list string);
  guppy_logs : gmap string (list string);
  guppy_telemetry : gmap string (list string)
}.

Definition empty_out_dir : out_dir :=
  {| basecalled_filenames := None; sequencing_summary := None;
     fastq := ∅; guppy_logs := ∅; guppy_telemetry := ∅ |}.

(** ** The ledger *)

Definition load_already_basecalled (basecalled : option (list string))
  : gset string :=
  match basecalled with
  | Some lines =>
      foldl (fun already_basecalled_files line =>
               already_basecalled_files ∪ {[ strip line ]}) ∅ lines
  | None => ∅
  end.

(** The characters at which the line iterator of a text file ends a line. *)
Definition line_break (c : ascii) : bool :=
  ((N_of_ascii c =? 10) || (N_of_ascii c =? 13))%N.

(** A string without a line break: written with a newline after it, it is
    one line of the file. *)
Definition one_line (s : string) : Prop :=
  Forall (fun c => line_break c = false) (list_ascii_of_string s).

(** A file whose last line, if it has one, ends with a newline: what is
    appended to it starts a line of its own. *)
Definition complete (file : option (list string)) : Prop :=
  match file with
  | Some lines =>
      match last lines with
      | Some line => exists s, line = (s ++ newline)%string
      | None => True
      end
  | None => True
  end.

(** Opening in append mode creates the file; each name is written with a
    newline after it.  The file is then read back as the lines that it had
    followed by one line for each name, provided that it ended with a
    newline if it had a line ([complete]) and that no name holds a line
    break ([one_line]): otherwise the text that is written joins the last
    line or is cut inside a name.  What is stated below about the lines of a
    ledger that has been appended to is stated under these two
    conditions. *)
Definition add_to_already_basecalled (fast5s : list path)
    (basecalled : option (list string)) : option (list string) :=
  Some (default [] basecalled
        ++ ((fun fast5 => (name fast5 ++ newline)%string) <$> fast5s)).

(** ** Batch selection *)

(** [all_fast5_files] is the list that the recursive glob of the input
    directory yields, in the order it yields it. *)
Definition check_for_reads (batch_size : Z) (all_fast5_files : list path)
    (basecalled : option (list string)) : list path * list path :=
  let already_basecalled := load_already_basecalled basecalled in
  let new_fast5_files :=
    filter (fun f => name f ∉ already_basecalled) all_fast5_files in
  (slice_to batch_size (sorted_paths new_fast5_files), all_fast5_files).

(** ** Merging the results of a batch *)

(** Appending to a file that may not exist yet. *)
Definition append_lines (lines : list string) (file : option (list string))
  : option (list string) :=
  Some (default [] file ++ lines).

Definition merge_summary (source : list string)
    (destination : option (list string)) : option (list string) :=
  let include_header := negb (bool_decide (is_Some destination)) in
  append_lines
    (filter (fun line => ¬ (negb include_header && startswith line "filename"))
            source)
    destination.

Definition merge_fastq (source : list string)
    (destination : option (list string)) : option (list string) :=
  append_lines source destination.

(** [re.search(r'barcode\d\d', s)]: the leftmost match. *)
Fixpoint search_barcode (s : string) : option string :=
  match s with
  | EmptyString => None
  | String _ s' =>
      if String.prefix "barcode" s then
        match String.get 7 s, String.get 8 s with
        | Some d1, Some d2 =>
            if digit_of_ascii d1 is Some _ then
              if digit_of_ascii d2 is Some _ then Some (substring 0 9 s)
              else search_barcode s'
            else search_barcode s'
        | _, _ => search_barcode s'
        end
      else search_barcode s'
  end.

(** The file name of the destination inside the output directory. *)
Definition get_destination_filename (barcodes : string)
    (source_filename : string) : string :=
  if String.eqb barcodes "none" then "reads.fastq"
  else
    let barcode := default "unclassified" (search_barcode source_filename) in
    (barcode ++ ".fastq")%string.

(** What one run of the external tool leaves in its output directory, each
    kind of file in the order the glob yields it.  [timestamp] is the result
    of [get_timestamp] on the last log file, which may read the clock. *)
Record temp_out : Type := {
  log_files : list (string * list string);
  timestamp : string;
  telemetry_files : list (list string);
  summary_files : list (list string);
  fastq_files : list (string * list string)
}.

Definition merge_results (t : temp_out) (barcodes : string) (o : out_dir)
  : out_dir :=
  let logs :=
    foldl (fun d f => <[ f.1 := f.2 ]> d) (guppy_logs o) (log_files t) in
  let telemetry :=
    foldl (fun d f =>
             <[ ("sequencing_telemetry-" ++ timestamp t ++ ".js")%string := f ]> d)
          (guppy_telemetry o) (telemetry_files t) in
  let summary :=
    foldl (fun d f => merge_summary f d) (sequencing_summary o)
          (summary_files t) in
  let fastqs :=
    foldl (fun d f =>
             let destination_filename := get_destination_filename barcodes f.1 in
             match merge_fastq f.2 (d !! destination_filename) with
             | Some lines => <[ destination_filename := lines ]> d
             | None => d
             end)
          (fastq o) (fastq_files t) in
  {| basecalled_filenames := basecalled_filenames o;
     sequencing_summary := summary;
     fastq := fastqs;
     guppy_logs := logs;
     guppy_telemetry := telemetry |}.

(** ** Basecalling a batch *)

(** The external tool, as the script sees it: it is given the staged batch
    and answers with a return code and the contents of its output
    directory. *)
Definition tool : Type := list path -> Z * temp_out.

(** The command has been run and has returned [return_code]. *)
Definition execute_with_output (return_code : Z) : result unit :=
  if bool_decide (return_code ≠ 0) then Raise (CalledProcessError return_code)
  else Ok ().

(** The temporary directory is removed on every way out of the [with]
    block, so only the output directory is state. *)
Definition basecall_reads (guppy : tool) (new_fast5s : list path)
    (barcodes : string) (o : out_dir) : result out_dir :=
  let '(return_code, t) := guppy new_fast5s in
  _ ← execute_with_output return_code;
  let o := merge_results t barcodes o in
  Ok {| basecalled_filenames :=
          add_to_already_basecalled new_fast5s (basecalled_filenames o);
        sequencing_summary := sequencing_summary o;
        fastq := fastq o;
        guppy_logs := guppy_logs o;
        guppy_telemetry := guppy_telemetry o |}.

(** ** Reading the merged summary *)

(** [l.index(x)] *)
Fixpoint list_index (l : list string) (x : string) : result nat :=
  match l with
  | [] => Raise ValueError
  | y :: l' => if String.eqb y x then Ok O else S <$> list_index l' x
  end.

(** [l[i]] for an index that is not negative. *)
Definition getitem {A} (l : list A) (i : nat) : result A :=
  match l !! i with
  | Some x => Ok x
  | None => Raise IndexError
  end.

Definition read_sequencing_summary (summary : option (list string))
    (columns : list string) : result (list (list string)) :=
  match summary with
  | None => Raise FileNotFoundError
  | Some lines =>
      let headers := py_split tab (strip (default "" (head lines))) in
      column_numbers ← mapR (list_index headers) columns;
      mapR (fun line =>
              let parts := py_split tab (strip line) in
              mapR (getitem parts) column_numbers)
           (filter (fun line => ¬ startswith line "filename") lines)
  end.

(** ** Barcode distribution *)

(** [d[key] += v] *)
Definition dict_add (d : gmap string Z) (key : string) (v : Z)
  : result (gmap string Z) :=
  match d !! key with
  | Some x => Ok (<[ key := x + v ]> d)
  | None => Raise (KeyError key)
  end.

(** [d[key]] *)
Definition dict_get (d : gmap string Z) (key : string) : result Z :=
  match d !! key with
  | Some x => Ok x
  | None => Raise (KeyError key)
  end.

(** ['{:02}'.format(i)] *)
Definition format_02 (i : Z) : string :=
  if (0 <=? i) && (i <? 10) then ("0" ++ pretty i)%string else pretty i.

(** The first and the last barcode number of a kit such as [native_1-12]. *)
Definition kit_range (barcode_kit : string) : result (Z * Z) :=
  let numbers := py_split "-" (default "" (last (py_split "_" barcode_kit))) in
  a ← getitem numbers 0%nat;
  first_barcode ← py_int a;
  b ← getitem numbers 1%nat;
  last_barcode ← py_int b;
  Ok (first_barcode, last_barcode).

Definition barcode_names (first_barcode last_barcode : Z) : list string :=
  ((fun i => ("barcode" ++ format_02 i)%string)
     <$> seqZ first_barcode (last_barcode + 1 - first_barcode))
  ++ ["unclassified"].

(** [{name: 0 for name in barcode_names}] *)
Definition zero_dict (names : list string) : gmap string Z :=
  foldl (fun d name => <[ name := 0 ]> d) ∅ names.

(** The loop that fills [bases] and [reads]. *)
Fixpoint count_loop (barcode_data : list (list string))
    (bases reads : gmap string Z) : result (gmap string Z * gmap string Z) :=
  match barcode_data with
  | [] => Ok (bases, reads)
  | [length; name] :: barcode_data' =>
      length ← py_int length;
      bases ← dict_add bases name length;
      reads ← dict_add reads name 1;
      count_loop barcode_data' bases reads
  | _ :: _ => Raise ValueError
  end.

(** [[int(x[0]) for x in barcode_data if x[1] == name]] *)
Definition lengths_of (barcode_data : list (list string)) (name : string)
  : result (list Z) :=
  mapR (fun x => s ← getitem x 0%nat; py_int s)
       (filter (fun x => x !! 1%nat = Some name) barcode_data).

(** One line of [barcode_distribution.tsv].  The percentage is the exact
    quotient of the two converted integers; its rounding to a binary64 and
    to two decimals is not modelled. *)
Record barcode_row : Type := {
  row_name : string;
  row_reads : Z;
  row_bases : Z;
  row_bases_percent : Q;
  row_n50 : Z
}.

(** [100.0 * bases / overall_total] *)
Definition bases_percent (bases overall_total : Z) : result Q :=
  a ← float_of_int bases;
  t ← float_of_int overall_total;
  if t =? 0 then Raise ZeroDivisionError
  else Ok (inject_Z (100 * a) / inject_Z t)%Q.

(** The loop that fills [n50s]. *)
Fixpoint n50_dict (barcode_data : list (list string)) (names : list string)
    (n50s : gmap string Z) : result (gmap string Z) :=
  match names with
  | [] => Ok n50s
  | name :: names' =>
      l ← lengths_of barcode_data name;
      n50 ← get_n50 l;
      n50_dict barcode_data names' (<[ name := n50 ]> n50s)
  end.

(** The first half of [barcode_distribution_summary], up to the loop that
    counts the reads and the bases of each barcode. *)
Definition barcode_counts (summary : option (list string))
    (barcode_kit : string)
  : result (list (list string) * list string
            * gmap string Z * gmap string Z) :=
  barcode_data ← read_sequencing_summary summary
                   ["sequence_length_template"; "barcode_arrangement"];
  '(first_barcode, last_barcode) ← kit_range barcode_kit;
  let barcode_names := barcode_names first_barcode last_barcode in
  '(bases, reads) ← count_loop barcode_data (zero_dict barcode_names)
                                (zero_dict barcode_names);
  Ok (barcode_data, barcode_names, bases, reads).

(** [sum(bases.values())] *)
Definition overall_total (bases : gmap string Z) : Z :=
  py_sum (snd <$> map_to_list bases).

(** The second half: the N50 of each barcode, then the rows of
    [barcode_distribution.tsv] after its header. *)
Definition barcode_rows (barcode_data : list (list string))
    (barcode_names : list string) (bases reads : gmap string Z)
  : result (list barcode_row) :=
  let overall_total := overall_total bases in
  n50s ← n50_dict barcode_data barcode_names ∅;
  mapR (fun name =>
          b ← dict_get bases name;
          percent ← bases_percent b overall_total;
          n50 ← dict_get n50s name;
          r ← dict_get reads name;
          Ok {| row_name := name; row_reads := r; row_bases := b;
                row_bases_percent := percent; row_n50 := n50 |})
       barcode_names.

Definition barcode_distribution_summary (summary : option (list string))
    (barcode_kit : string) : result (list barcode_row) :=
  '(barcode_data, barcode_names, bases, reads) ←
    barcode_counts summary barcode_kit;
  barcode_rows barcode_data barcode_names bases reads.

(** ** Translocation speed over time *)

(** An entry of [read_trans_speeds]: the minutes since the earliest run
    start, the speed and the quality of one read.  The three floats are
    kept as the rational numbers they denote. *)
Record read_speed : Type := {
  read_time : Q;
  trans_speed : Q;
  qscore : Q
}.

#[global] Instance Qle_dec : RelDecision Qle.
Proof.
  intros x y. destruct (Qlt_le_dec y x) as [H | H].
  - right. apply Qlt_not_le, H.
  - left. exact H.
Defined.

Definition Qltb (x y : Q) : bool := negb (Qle_bool y x).

(** [max(a, b)] *)
Definition py_max (a b : Q) : Q := if Qltb a b then b else a.

(** [statistics.median] of a list that is not empty; the mean of the two
    middle values is exact here. *)
Definition median (data : list Q) : Q :=
  let data := merge_sort Qle data in
  let n := length data in
  if Nat.odd n then nth (n / 2)%nat data 0%Q
  else ((nth (n / 2 - 1)%nat data 0 + nth (n / 2)%nat data 0) / 2)%Q.

(** A metric cell of the report: the empty string or a median. *)
Inductive cell : Type :=
| Blank
| Value (median : Q).

Record window_row : Type := {
  window_start : Z;
  window_end : Z;
  median_speed : cell;
  median_qscore : cell
}.

(** [[x for x in read_trans_speeds if window_start <= x[0] < window_end]] *)
Definition window_data (read_trans_speeds : list read_speed)
    (window_start window_end : Z) : list read_speed :=
  filter (fun x => Qle_bool (inject_Z window_start) (read_time x)
                   && Qltb (read_time x) (inject_Z window_end) = true)
         read_trans_speeds.

(** The [while window_start < max_time] loop; [None] when it is still
    running after [fuel] turns. *)
Fixpoint window_loop (fuel : nat) (read_trans_speeds : list read_speed)
    (max_time : Q) (time_window window_start window_end : Z)
  : option (list window_row) :=
  match fuel with
  | O => None
  | S fuel' =>
      if Qltb (inject_Z window_start) max_time then
        let window_data := window_data read_trans_speeds window_start window_end in
        let window_count := length window_data in
        let '(median_speed, median_qscore) :=
          if (0 <? window_count)%nat
          then (Value (median (trans_speed <$> window_data)),
                Value (median (qscore <$> window_data)))
          else (Blank, Blank) in
        rows ← window_loop fuel' read_trans_speeds max_time time_window
                 (window_start + time_window) (window_end + time_window);
        Some ({| window_start := window_start; window_end := window_end;
                 median_speed := median_speed;
                 median_qscore := median_qscore |} :: rows)
      else Some []
  end.

(** [max_time], which starts at [0.0] and is raised by every read. *)
Definition max_read_time (read_trans_speeds : list read_speed) : Q :=
  foldl (fun max_time x => py_max max_time (read_time x)) 0%Q
        read_trans_speeds.

(** The rows written to [translocation_speed.tsv] after its header. *)
Definition translocation_speed_rows (fuel : nat)
    (read_trans_speeds : list read_speed) (time_window : Z)
  : option (list window_row) :=
  let max_time := max_read_time read_trans_speeds in
  window_loop fuel read_trans_speeds max_time time_window 0 time_window.

(** ** The main loop *)

(** [x >= n] for a float [x] and an integer [n]: Python compares the two
    numbers exactly. *)
Definition float_ge_int (x : float) (n : Z) : bool :=
  match Prim2SF x with
  | S754_zero _ => n <=? 0
  | S754_infinity s => negb s
  | S754_nan => false
  | S754_finite s m e =>
      let v := if s then Z.neg m else Z.pos m in
      if 0 <=? e then n <=? v * 2 ^ e else n * 2 ^ (- e) <=? v
  end.

Definition tick_seconds : Z := 10.

(** [tick_seconds / 60]: both integers are binary64 numbers, and the
    quotient of two floats is rounded to nearest as the quotient of two
    integers is. *)
Definition tick_minutes : float :=
  (PrimFloat.of_uint63 (Uint63.of_Z tick_seconds)
   / PrimFloat.of_uint63 (Uint63.of_Z 60))%float.

(** How the loop ends: by [break], by an exception that nothing catches,
    or it is still running when the fuel is spent. *)
Inductive exit : Type :=
| Stopped
| Crashed (e : exn)
| Running.

(** A run of the loop: how it ended, the output directory it left, the
    number of scans of the input directory and the number of calls of
    [time.sleep(tick_seconds)]. *)
Record run : Type := {
  run_exit : exit;
  run_out : out_dir;
  run_scans : nat;
  run_sleeps : nat
}.

(** The loop of [main], one turn per unit of fuel.  The messages that it
    prints are left out, and so is the interrupt from the keyboard, which
    ends the loop from outside. *)
Section main.
Variables (batch_size stop_time : Z) (barcodes : string).
(** The fast5 files that the glob finds at each scan. *)
Variable in_dir : nat -> list path.
Variable guppy : tool.
(** The statistics pass reads the fast5 files themselves. *)
Variable summary_info : out_dir -> list path -> result unit.

Fixpoint main_loop (fuel : nat) (o : out_dir)
    (minutes_since_last_read : float) (waiting : bool)
    (scans sleeps : nat) : run :=
  match fuel with
  | O => {| run_exit := Running; run_out := o;
            run_scans := scans; run_sleeps := sleeps |}
  | S fuel' =>
      if float_ge_int minutes_since_last_read stop_time then
        {| run_exit := Stopped; run_out := o;
           run_scans := scans; run_sleeps := sleeps |}
      else
        let '(new_fast5s, all_fast5s) :=
          check_for_reads batch_size (in_dir scans) (basecalled_filenames o) in
        match new_fast5s with
        | _ :: _ =>
            match basecall_reads guppy new_fast5s barcodes o with
            | Raise e => {| run_exit := Crashed e; run_out := o;
                            run_scans := S scans; run_sleeps := sleeps |}
            | Ok o' =>
                match summary_info o' all_fast5s with
                | Raise e => {| run_exit := Crashed e; run_out := o';
                                run_scans := S scans; run_sleeps := sleeps |}
                | Ok _ => main_loop fuel' o' 0%float false (S scans) sleeps
                end
            end
        | [] =>
            main_loop fuel' o (minutes_since_last_read + tick_minutes)%float
                      true (S scans) (S sleeps)
        end
  end.

Definition main (fuel : nat) (o : out_dir) : run :=
  main_loop fuel o 0%float false 0 0.
End main.

(** ** The properties, as predicates *)

(** A header row of the summary: a line that starts with [filename]. *)
Definition is_header (line : string) : bool := startswith line "filename".

Definition count_headers (lines : list string) : nat :=
  length (filter (fun line => is_header line = true) lines).

(** Merging the fragments one after the other into one destination. *)
Definition merge_all (fragments : list (list string))
    (destination : option (list string)) : option (list string) :=
  foldl (fun d f => merge_summary f d) destination fragments.

(** The sum of the elements of [S] that are at least [x], each occurrence
    counted. *)
Definition sum_from (S : list Z) (x : Z) : Z :=
  py_sum (filter (fun y => x <= y) S).

(** [r] is the N50 of [S]: the longest length of [S] from which the lengths
    sum to at least half of the total. *)
Definition is_n50 (S : list Z) (r : Z) : Prop :=
  r ∈ S /\ py_sum S <= 2 * sum_from S r /\
  forall y, y ∈ S -> r < y -> 2 * sum_from S y < py_sum S.

(** The text that [add_to_already_basecalled] writes for a file. *)
Definition ledger_line (f : path) : string := (name f ++ newline)%string.

(** The number of rows of a report whose window holds the time [t]. *)
Definition windows_holding (rows : list window_row) (t : Q) : nat :=
  length (filter (fun r => Qle_bool (inject_Z (window_start r)) t
                           && Qltb t (inject_Z (window_end r)) = true) rows).

(** The minutes accumulated by [n] idle turns of the main loop. *)
Definition idle_minutes (n : nat) : float :=
  Nat.iter n (fun minutes => (minutes + tick_minutes)%float) 0%float.

(** A row that the counting loop accepts: a length that [int] reads and a
    label that is a key of the dictionaries. *)
Definition counted_row (keys : gset string) (row : list string) : Prop :=
  exists length label v,
    row = [length; label] /\ py_int length = Ok v /\ label ∈ keys.

(** The start of the window of the time [t]:
    [floor(t / time_window) * time_window]. *)
Definition window_of (t : Q) (time_window : Z) : Z :=
  Qfloor (t / inject_Z time_window) * time_window.

(** ** Example lines of a summary *)

(** A row of data whose file name starts with [filename], the header row
    and an ordinary row. *)
Definition filename_row : string :=
  "filename_17.fast5" ++ String tab ("r1" ++ String tab ("100" ++ newline)).

Definition header_row : string :=
  "filename" ++ String tab ("run_id" ++ String tab
    ("sequence_length_template" ++ newline)).

Definition plain_row : string :=
  "read_18.fast5" ++ String tab ("r1" ++ String tab ("250" ++ newline)).

(** A summary with the two columns that the barcode distribution reads. *)
Definition barcode_header : string :=
  "filename" ++ String tab ("sequence_length_template" ++ String tab
    ("barcode_arrangement" ++ newline)).

Definition barcode_row_of (file length label : string) : string :=
  file ++ String tab (length ++ String tab (label ++ newline)).

(** A read that starts [t] minutes after the earliest run start. *)
Definition read_at (t : Q) : read_speed :=
  {| read_time := t; trans_speed := 450; qscore := 10 |}.

(** ** The command line and the command of the tool *)

(** The two tables of the script, in the order of their keys. *)
Definition BASECALLING : list (string * list string) :=
  [("r9.4_fast", ["--config"; "dna_r9.4.1_450bps_fast.cfg"]);
   ("r9.4_hac", ["--config"; "dna_r9.4.1_450bps_hac.cfg"]);
   ("r9.4_mod", ["--config"; "dna_r9.4.1_450bps_modbases_dam-dcm-cpg_hac.cfg"]);
   ("r9.4_kp", ["--config"; "dna_r9.4.1_450bps_hac.cfg";
                "--model"; "holtlab_kp_large_flipflop_r9.4_r9.4.1_apr_2019.jsn"]);
   ("r10_fast", ["--config"; "dna_r10_450bps_fast.cfg"]);
   ("r10_hac", ["--config"; "dna_r10_450bps_hac.cfg"]);
   ("r10_kp", ["--config"; "TBA"; "--model"; "TBA"])].

Definition BARCODING : list (string * list string) :=
  [("native_1-12", ["--barcode_kits"; "EXP-NBD104"; "--trim_barcodes"]);
   ("native_13-24", ["--barcode_kits"; "EXP-NBD114"; "--trim_barcodes"]);
   ("native_1-24", ["--barcode_kits"; "EXP-NBD104 EXP-NBD114"; "--trim_barcodes"]);
   ("native_1-96", ["--barcode_kits"; "EXP-NBD196"; "--trim_barcodes"]);
   ("rapid_1-12", ["--barcode_kits"; "SQK-RBK004"; "--trim_barcodes"]);
   ("none", [])].

(** [list(table.keys())] *)
Definition keys (table : list (string * list string)) : list string :=
  fst <$> table.

(** [table[key]] *)
Fixpoint table_get (table : list (string * list string)) (key : string)
  : result (list string) :=
  match table with
  | [] => Raise (KeyError key)
  | (k, v) :: table' => if String.eqb k key then Ok v else table_get table' key
  end.

(** [c.lower()] on the code points below 256: the capital letters of ASCII
    and of Latin-1. *)
Definition lower_ascii (c : ascii) : ascii :=
  let n := N_of_ascii c in
  if ((65 <=? n) && (n <=? 90)
      || (192 <=? n) && (n <=? 222) && negb (n =? 215))%N
  then ascii_of_N (n + 32) else c.

(** [s.lower()] *)
Fixpoint py_lower (s : string) : string :=
  match s with
  | EmptyString => EmptyString
  | String c s' => String (lower_ascii c) (py_lower s')
  end.

(** [join_with_or] on a list of strings. *)
Definition join_with_or (str_list : list string) : string :=
  match str_list with
  | [] => ""
  | [x] => x
  | _ => (String.concat ", " (removelast str_list) ++ " or "
          ++ default "" (last str_list))%string
  end.

(** The arguments that [check_arguments] looks at, the two paths with what
    the file system says about them, and the options of the command. *)
Record arguments : Type := {
  in_dir : string;
  in_dir_is_dir : bool;
  out_dir_path : string;
  out_dir_is_file : bool;
  barcodes : string;
  model : string;
  batch_size : Z;
  stop_time : Z;
  trans_window : Z;
  detect_mid_strand_barcodes : bool;
  cpu : bool
}.

(** [check_arguments] either returns, with [barcodes] and [model] in lower
    case, or leaves the program through [sys.exit] with a message. *)
Inductive checked : Type :=
| Accepted (args : arguments)
| Exit (message : string).

Definition check_arguments (args : arguments) : checked :=
  let barcode_choices := keys BARCODING in
  let barcodes' := py_lower (barcodes args) in
  if negb (bool_decide (barcodes' ∈ barcode_choices)) then
    Exit ("Error: valid --barcodes choices are: "
          ++ join_with_or barcode_choices)%string
  else
    let model_choices := keys BASECALLING in
    let model' := py_lower (model args) in
    if negb (bool_decide (model' ∈ model_choices)) then
      Exit ("Error: valid --model choices are: "
            ++ join_with_or model_choices)%string
    else if negb (in_dir_is_dir args) then
      Exit ("Error: " ++ in_dir args ++ " is not a directory")%string
    else if stop_time args <=? 0 then
      Exit "Error: --stop_time must be a positive integer"
    else if batch_size args <=? 0 then
      Exit "Error: --batch_size must be a positive integer"
    else if out_dir_is_file args then
      Exit ("Error: " ++ out_dir_path args
            ++ " is a file (must be a directory)")%string
    else
      Accepted {| in_dir := in_dir args;
                  in_dir_is_dir := in_dir_is_dir args;
                  out_dir_path := out_dir_path args;
                  out_dir_is_file := out_dir_is_file args;
                  barcodes := barcodes';
                  model := model';
                  batch_size := batch_size args;
                  stop_time := stop_time args;
                  trans_window := trans_window args;
                  detect_mid_strand_barcodes := detect_mid_strand_barcodes args;
                  cpu := cpu args |}.

Definition get_guppy_command (in_dir out_dir barcodes model : string)
    (detect_mid_strand_barcodes cpu : bool) : result (list string) :=
  let guppy_command :=
    ["guppy_basecaller"; "--input_path"; in_dir; "--save_path"; out_dir] in
  let guppy_command :=
    if negb cpu then guppy_command ++ ["--device"; "auto"]
    else guppy_command in
  let guppy_command :=
    if detect_mid_strand_barcodes
    then guppy_command ++ ["--detect_mid_strand_barcodes"]
    else guppy_command in
  basecalling ← table_get BASECALLING model;
  let guppy_command := guppy_command ++ basecalling in
  barcoding ← table_get BARCODING barcodes;
  Ok (guppy_command ++ barcoding).

(** ** Overall totals *)

(** The three numbers that [overall_summary] prints: the number of reads,
    the total of the bases and the N50. *)
Definition overall_summary (summary : option (list string))
  : result (Z * Z * Z) :=
  sequence_lengths ← read_sequencing_summary summary
                       ["sequence_length_template"];
  sequence_lengths ← mapR (fun x => s ← getitem x 0%nat; py_int s)
                          sequence_lengths;
  let num_reads := Z.of_nat (length sequence_lengths) in
  let total_bases := py_sum sequence_lengths in
  n50 ← get_n50 sequence_lengths;
  Ok (num_reads, total_bases, n50).

(** ** Searching a file name *)

(** [re.search] for a pattern that is a sequence of character classes: the
    leftmost place where each character is in its class. *)
Fixpoint match_here (pattern : list (ascii -> bool)) (s : string)
  : option string :=
  match pattern, s with
  | [], _ => Some EmptyString
  | _ :: _, EmptyString => None
  | class :: pattern', String c s' =>
      if class c then String c <$> match_here pattern' s' else None
  end.

Fixpoint search (pattern : list (ascii -> bool)) (s : string)
  : option string :=
  match match_here pattern s with
  | Some m => Some m
  | None =>
      match s with
      | EmptyString => None
      | String _ s' => search pattern s'
      end
  end.

(** [\d] *)
Definition is_digit (c : ascii) : bool :=
  if digit_of_ascii c is Some _ then true else false.

(** The classes of [barcode\d\d]. *)
Definition barcode_pattern : list (ascii -> bool) :=
  (Ascii.eqb <$> list_ascii_of_string "barcode") ++ [is_digit; is_digit].

(** The classes of [\d\d\d\d-\d\d-\d\d_\d\d-\d\d-\d\d]. *)
Definition timestamp_pattern : list (ascii -> bool) :=
  [is_digit; is_digit; is_digit; is_digit; Ascii.eqb "-";
   is_digit; is_digit; Ascii.eqb "-"; is_digit; is_digit; Ascii.eqb "_";
   is_digit; is_digit; Ascii.eqb "-"; is_digit; is_digit; Ascii.eqb "-";
   is_digit; is_digit].

(** [now] is the time of the call in the format of the pattern. *)
Definition get_timestamp (now : string) (log_filename : option string)
  : string :=
  match log_filename with
  | Some f => default now (search timestamp_pattern f)
  | None => now
  end.

(** ** Staging a batch *)

(** The temporary input directory: what has been copied under each file
    name.  [uuids] are the values that [uuid.uuid4()] returns, in order; the
    result is [None] when they are used up while a name is still taken. *)
Fixpoint free_path (temp_in : gmap string path) (new_path : string)
    (uuids : list string) : option (string * list string) :=
  if bool_decide (is_Some (temp_in !! new_path)) then
    match uuids with
    | [] => None
    | u :: uuids' => free_path temp_in (u ++ ".fast5")%string uuids'
    end
  else Some (new_path, uuids).

Fixpoint copy_loop (new_fast5s : list path) (temp_in : gmap string path)
    (uuids : list string) : option (gmap string path) :=
  match new_fast5s with
  | [] => Some temp_in
  | f :: new_fast5s' =>
      '(new_path, uuids') ← free_path temp_in (name f) uuids;
      copy_loop new_fast5s' (<[ new_path := f ]> temp_in) uuids'
  end.

(** [temp_in.mkdir()] makes the directory, which is empty. *)
Definition copy_reads_to_temp_in (new_fast5s : list path)
    (uuids : list string) : option (gmap string path) :=
  copy_loop new_fast5s ∅ uuids.

(** ** Reading the summary, in words *)

(** The fields of a line, as [read_sequencing_summary] splits it. *)
Definition fields (line : string) : list string := py_split tab (strip line).

(** The lines that [read_sequencing_summary] does not skip. *)
Definition data_lines (lines : list string) : list string :=
  filter (fun line => ¬ startswith line "filename") lines.

(** [i] is the first place of [x] in [l]. *)
Definition first_index (l : list string) (x : string) (i : nat) : Prop :=
  l !! i = Some x /\ forall j, (j < i)%nat -> l !! j <> Some x.

(** A string matches a pattern when it has one character for each class,
    each in its class. *)
Definition matches (pattern : list (ascii -> bool)) (m : string) : Prop :=
  Forall2 (fun (class : ascii -> bool) c => class c = true)
          pattern (list_ascii_of_string m).

(** ** Growing files *)



(** A staged batch and what the tool makes of it, for the examples. *)
Definition example_temp_out : temp_out :=
  {| log_files := [("guppy_basecaller_log-2020-01-31_10-20-30.log", ["start"])];
     timestamp := "2020-01-31_10-20-30";
     telemetry_files := [["{}"]];
     summary_files := [[header_row; plain_row]];
     fastq_files :=
       [("pass/barcode01/fastq_runid_0.fastq", ["@r1"; "ACGT"; "+"; "IIII"]);
        ("pass/unclassified/fastq_runid_0.fastq", ["@r2"; "AC"; "+"; "II"]);
        ("fail/barcode01/fastq_runid_0.fastq", ["@r3"; "A"; "+"; "I"])] |}.

(** The arguments with another [--trans_window]. *)
Definition with_trans_window (w : Z) (args : arguments) : arguments :=
  {| in_dir := in_dir args;
     in_dir_is_dir := in_dir_is_dir args;
     out_dir_path := out_dir_path args;
     out_dir_is_file := out_dir_is_file args;
     barcodes := barcodes args;
     model := model args;
     batch_size := batch_size args;
     stop_time := stop_time args;
     trans_window := w;
     detect_mid_strand_barcodes := detect_mid_strand_barcodes args;
     cpu := cpu args |}.

(** The command line of the examples. *)
Definition example_arguments : arguments :=
  {| in_dir := "fast5"; in_dir_is_dir := true;
     out_dir_path := "out"; out_dir_is_file := false;
     barcodes := "Native_1-12"; model := "R9.4_HAC";
     batch_size := 10; stop_time := 60; trans_window := 60;
     detect_mid_strand_barcodes := false; cpu := false |}.

(** The values of [uuids] whose file name is not taken in [temp_in]. *)
Definition free_uuids (temp_in : gmap string path) (uuids : list string)
  : list string :=
  filter (fun u => temp_in !! (u ++ ".fast5")%string = None) uuids.

(** * Theorems *)

(** ** The main loop *)

Lemma check_for_reads_nil batch_size basecalled :
  check_for_reads batch_size [] basecalled = ([], []).
Proof.
  unfold check_for_reads, slice_to. rewrite filter_nil.
  change (sorted_paths []) with (@nil path).
  destruct (0 <=? batch_size); rewrite take_nil; reflexivity.
Qed.

Section idle.
Variables (batch_size stop_time : Z) (barcodes : string).
Variable guppy : tool.
Variable summary_info : out_dir -> list path -> result unit.

(** An idle turn: the stop test fails, the scan finds nothing, the loop
    sleeps once and adds a tick. *)
Lemma main_loop_idle_turn fuel o minutes waiting scans sleeps :
  float_ge_int minutes stop_time = false ->
  main_loop batch_size stop_time barcodes (fun _ => []) guppy summary_info
    (S fuel) o minutes waiting scans sleeps
  = main_loop batch_size stop_time barcodes (fun _ => []) guppy summary_info
      fuel o (minutes + tick_minutes)%float true (S scans) (S sleeps).
Proof.
  intros Hlt. cbn [main_loop]. rewrite Hlt.
  rewrite check_for_reads_nil. reflexivity.
Qed.

Lemma main_loop_stop in_dir fuel o minutes waiting scans sleeps :
  float_ge_int minutes stop_time = true ->
  main_loop batch_size stop_time barcodes in_dir guppy summary_info
    (S fuel) o minutes waiting scans sleeps
  = {| run_exit := Stopped; run_out := o;
       run_scans := scans; run_sleeps := sleeps |}.
Proof. intros Hge. cbn [main_loop]. rewrite Hge. reflexivity. Qed.
End idle.

(** C5, on the code: with a stop threshold of 1 minute and nothing new in
    the input directory, six ticks of [10 / 60] minutes add up to
    0.9999999999999999, which is below the threshold, so the loop scans and
    sleeps a seventh time and stops only then. *)
Theorem main_idle_stops_after_seven_ticks :
  idle_minutes 6 = 0x1.fffffffffffffp-1%float /\
  float_ge_int (idle_minutes 6) 1 = false /\
  forall batch_size barcodes guppy summary_info o k,
    main batch_size 1 barcodes (fun _ => []) guppy summary_info (8 + k) o
    = {| run_exit := Stopped; run_out := o;
         run_scans := 7; run_sleeps := 7 |}.
Proof.
  split; [vm_compute; reflexivity|].
  split; [vm_compute; reflexivity|].
  intros batch_size barcodes guppy summary_info o k. unfold main.
  change (8 + k)%nat with (S (S (S (S (S (S (S (S k)))))))).
  do 7 (rewrite main_loop_idle_turn by (vm_compute; reflexivity)).
  apply main_loop_stop. vm_compute. reflexivity.
Qed.

(** ** N50 *)

Lemma py_sum_app l1 l2 : py_sum (l1 ++ l2) = py_sum l1 + py_sum l2.
Proof.
  induction l1 as [|x l1 IH]; simpl; [reflexivity|].
  unfold py_sum in *. simpl. lia.
Qed.

Lemma py_sum_Permutation l1 l2 : l1 ≡ₚ l2 -> py_sum l1 = py_sum l2.
Proof.
  unfold py_sum. induction 1; simpl; lia.
Qed.

#[local] Instance py_sum_proper : Proper ((≡ₚ) ==> (=)) py_sum.
Proof. intros l1 l2. apply py_sum_Permutation. Qed.

Lemma py_sum_filter_bounds (P : Z -> Prop) `{!forall x, Decision (P x)} l :
  Forall (fun x => 0 < x) l -> 0 <= py_sum (filter P l) <= py_sum l.
Proof.
  induction 1 as [|x l Hx Hl IH]; [unfold py_sum; simpl; lia|].
  rewrite filter_cons. destruct (decide (P x)); unfold py_sum in *; simpl; lia.
Qed.

Lemma filter_all {A} (P : A -> Prop) `{!forall x, Decision (P x)} l :
  Forall P l -> filter P l = l.
Proof.
  induction 1 as [|x l Hx Hl IH]; [reflexivity|].
  rewrite filter_cons_True by assumption. f_equal. exact IH.
Qed.

Lemma filter_none {A} (P : A -> Prop) `{!forall x, Decision (P x)} l :
  Forall (fun x => ~ P x) l -> filter P l = [].
Proof.
  induction 1 as [|x l Hx Hl IH]; [reflexivity|].
  rewrite filter_cons_False by assumption. exact IH.
Qed.

#[local] Instance Zge_trans : Transitive Z.ge.
Proof. intros x y z. lia. Qed.

#[local] Instance Zge_total : Total Z.ge.
Proof. intros x y. lia. Qed.

Lemma sorted_reverse_Permutation l : sorted_reverse l ≡ₚ l.
Proof. apply merge_sort_Permutation. Qed.

Lemma sorted_reverse_sorted l : StronglySorted Z.ge (sorted_reverse l).
Proof. apply StronglySorted_merge_sort; apply _. Qed.

(** The integers up to [2 ^ 53] are binary64 numbers. *)
Lemma round_to_double_exact n : 0 <= n <= 2 ^ 53 -> round_to_double n = n.
Proof.
  intros [H0 H1]. destruct (Z.eq_dec n (2 ^ 53)) as [->|Hne].
  { vm_compute. reflexivity. }
  unfold round_to_double. rewrite Z.abs_eq by assumption.
  destruct (Z.eq_dec n 0) as [->|Hn0]; [reflexivity|].
  assert (Z.log2 n < 53) by (apply Z.log2_lt_pow2; lia).
  replace (Z.log2 n - 52 <=? 0) with true by (symmetry; apply Z.leb_le; lia).
  reflexivity.
Qed.

Lemma float_of_int_exact n : 0 <= n <= 2 ^ 53 -> float_of_int n = Ok n.
Proof.
  intros Hn. unfold float_of_int. rewrite round_to_double_exact by assumption.
  replace (Z.abs n <? 2 ^ 1024) with true; [reflexivity|].
  symmetry. apply Z.ltb_lt. rewrite Z.abs_eq by lia.
  assert (2 ^ 53 < 2 ^ 1024) by (apply Z.pow_lt_mono_r; lia). lia.
Qed.

(** [round_to_double] against the rounding of the Standard Library's
    specification of binary64, below, at and above [2 ^ 53], on ties and
    next to them, and at the overflow threshold. *)
Lemma round_to_double_agrees :
  Forall (fun n => sf_value (SpecFloat.binary_normalize 53 1024 n 0 false)
                   = Some (round_to_double n))
         [0; 1; -3; 2 ^ 53; 2 ^ 53 + 1; 2 ^ 53 + 3; 2 ^ 54 + 2; 2 ^ 54 + 6;
          - (2 ^ 54 + 6); 2 ^ 60 + 2 ^ 7; 2 ^ 60 + 2 ^ 7 + 1;
          2 ^ 60 + 3 * 2 ^ 7; 2 ^ 100 - 1; 2 ^ 1024 - 2 ^ 970 - 1] /\
  SpecFloat.binary_normalize 53 1024 (2 ^ 1024 - 2 ^ 970) 0 false
  = S754_infinity false /\
  float_of_int (2 ^ 1024 - 2 ^ 970) = Raise OverflowError.
Proof.
  split; [|split; vm_compute; reflexivity].
  repeat constructor; vm_compute; reflexivity.
Qed.

(** The test of the loop of [get_n50] against half of [f], on integers. *)
Lemma half_reached f b :
  Qle_bool (inject_Z f * (1 # 2)) (inject_Z b) = (f <=? 2 * b).
Proof.
  unfold Qle_bool, Qmult, inject_Z. cbn [Qnum Qden].
  rewrite !Z.mul_1_r. change (Z.pos (1 * 2)) with 2.
  rewrite (Z.mul_comm b 2). reflexivity.
Qed.

(** The loop returns the element at which the running sum first reaches
    half of [T]. *)
Lemma n50_loop_split T l : forall acc,
  2 * acc < T -> T <= 2 * (acc + py_sum l) ->
  exists pre x post,
    l = pre ++ x :: post /\
    n50_loop (inject_Z T * (1 # 2)) acc l = x /\
    2 * (acc + py_sum pre) < T /\
    T <= 2 * (acc + py_sum pre + x).
Proof.
  induction l as [|x l IH]; intros acc Hlo Hhi.
  - unfold py_sum in Hhi. simpl in Hhi. lia.
  - cbn [n50_loop]. rewrite half_reached.
    destruct (Z.leb_spec T (2 * (acc + x))) as [Hle|Hgt].
    + exists [], x, l. unfold py_sum. simpl. repeat split; lia.
    + destruct (IH (acc + x)) as (pre & y & post & -> & Hy & Hpre & Hreach).
      * lia.
      * unfold py_sum in *. simpl in Hhi. lia.
      * exists (x :: pre), y, post. unfold py_sum in *. simpl.
        repeat split; [assumption|lia|lia].
Qed.

(** On a list of positive lengths whose total is a binary64 number,
    [get_n50] returns the N50. *)
Lemma get_n50_is_n50 S :
  S <> [] -> Forall (fun x => 0 < x) S -> py_sum S <= 2 ^ 53 ->
  exists r, get_n50 S = Ok r /\ is_n50 S r.
Proof.
  intros Hne Hpos Hbound.
  pose proof (sorted_reverse_Permutation S) as Hperm.
  pose proof (sorted_reverse_sorted S) as Hsorted.
  assert (Hsum : py_sum (sorted_reverse S) = py_sum S)
    by (apply py_sum_Permutation, Hperm).
  assert (HposL : Forall (fun x => 0 < x) (sorted_reverse S))
    by (rewrite Hperm; exact Hpos).
  assert (Htotal : 0 < py_sum S).
  { destruct Hpos as [|x l Hx Hl]; [congruence|].
    pose proof (py_sum_filter_bounds (fun _ => True) l Hl) as Hb.
    unfold py_sum in *. simpl. lia. }
  unfold get_n50. rewrite Hsum, float_of_int_exact by lia. cbn [mbind result_bind].
  destruct (n50_loop_split (py_sum S) (sorted_reverse S) 0)
    as (pre & x & post & HL & Hx & Hpre & Hreach); [lia|lia|].
  exists x. split; [rewrite Hx; reflexivity|].
  rewrite HL in Hperm, Hsorted, HposL.
  apply StronglySorted_app in Hsorted as (Hcross & _ & Htail).
  apply StronglySorted_cons in Htail as [Hpost _].
  apply Forall_app in HposL as [Hpospre Hpostail].
  assert (Hsplit : forall y, sum_from S y
            = py_sum (filter (fun z => y <= z) pre)
              + py_sum (filter (fun z => y <= z) (x :: post))).
  { intros y. unfold sum_from. rewrite <- Hperm, filter_app. apply py_sum_app. }
  repeat split.
  - rewrite <- Hperm. set_solver.
  - rewrite Hsplit. rewrite (filter_all _ pre).
    + rewrite filter_cons_True by lia.
      apply Forall_cons in Hpostail as [_ Hpospost].
      pose proof (py_sum_filter_bounds (fun z => x <= z) post Hpospost) as Hb.
      unfold py_sum in *. simpl. lia.
    + apply Forall_forall. intros z Hz.
      specialize (Hcross z x Hz ltac:(left)). lia.
  - intros y _ Hlt. rewrite Hsplit. rewrite (filter_none _ (x :: post)).
    + pose proof (py_sum_filter_bounds (fun z => y <= z) pre Hpospre) as Hb.
      unfold py_sum in *. simpl. lia.
    + constructor; [lia|].
      eapply Forall_impl; [exact Hpost|]. intros z Hz. simpl in Hz. lia.
Qed.

(** Where the total is at most [2 ^ 53], and so is a binary64 number,
    [get_n50] returns the N50: on every list of positive lengths with such a
    total it returns a length of the list from which the lengths sum to at
    least half of the total, and no longer length of the list does so; on
    the empty list it returns 0 and on [[x]] it returns [x]. *)
Theorem get_n50_correct :
  get_n50 [] = Ok 0 /\
  (forall x, 0 < x -> x <= 2 ^ 53 -> get_n50 [x] = Ok x) /\
  (forall S, S <> [] -> Forall (fun x => 0 < x) S -> py_sum S <= 2 ^ 53 ->
     exists r, get_n50 S = Ok r /\ is_n50 S r).
Proof.
  split; [reflexivity|]. split; [|exact get_n50_is_n50].
  intros x Hpos Hbound.
  destruct (get_n50_is_n50 [x]) as (r & Hr & Hin & _).
  - discriminate.
  - repeat constructor. exact Hpos.
  - unfold py_sum. simpl. lia.
  - apply list_elem_of_singleton in Hin. subst r. exact Hr.
Qed.

Lemma get_n50_correct_witness :
  get_n50 [7] = Ok 7 /\
  exists r, get_n50 [100; 50; 200] = Ok r /\ is_n50 [100; 50; 200] r.
Proof.
  split.
  - apply (proj1 (proj2 get_n50_correct) 7); [lia|].
    vm_compute. discriminate.
  - apply (proj2 (proj2 get_n50_correct) [100; 50; 200]).
    + discriminate.
    + repeat constructor.
    + vm_compute. discriminate.
Defined.

(** C1: [get_n50] misses the N50 where the total is not a binary64 number.
    The total [2 ^ 54 + 2] of the three lengths is rounded to [2 ^ 54] when
    it is multiplied by [0.5]; the first length reaches that half and is
    returned, although it is less than half of the true total; the N50 is
    the second length. *)
Theorem get_n50_misses_half_by_rounding :
  Forall (fun x => 0 < x) [2 ^ 53; 2 ^ 53 - 1; 3] /\
  get_n50 [2 ^ 53; 2 ^ 53 - 1; 3] = Ok (2 ^ 53) /\
  ~ is_n50 [2 ^ 53; 2 ^ 53 - 1; 3] (2 ^ 53) /\
  is_n50 [2 ^ 53; 2 ^ 53 - 1; 3] (2 ^ 53 - 1).
Proof.
  split; [repeat constructor|].
  split; [vm_compute; reflexivity|]. split.
  - intros (_ & Hhalf & _). vm_compute in Hhalf. apply Hhalf. reflexivity.
  - split; [right; left|]. split.
    + vm_compute. discriminate.
    + intros y Hy Hlt.
      apply elem_of_cons in Hy as [->|Hy]; [vm_compute; reflexivity|].
      apply elem_of_cons in Hy as [->|Hy]; [lia|].
      apply list_elem_of_singleton in Hy. subst y. lia.
Qed.

(** ** The order of paths *)

Lemma string_ltb_iff x y : String.ltb x y = true <-> String.le x y /\ x <> y.
Proof.
  unfold String.le, String.leb, String.ltb.
  destruct (String.compare x y) eqn:Hc; simpl.
  - apply String.compare_eq_iff in Hc. split; [discriminate|tauto].
  - split; [|reflexivity]. intros _. split; [exact I|].
    intros ->.
    pose proof (String.compare_antisym y y) as Ha. rewrite Hc in Ha.
    discriminate.
  - split; [discriminate|intros [[] _]].
Qed.

Lemma string_ltb_total x y : x <> y -> String.ltb x y = true \/ String.ltb y x = true.
Proof.
  intros Hne. destruct (total String.le x y) as [H|H].
  - left. apply string_ltb_iff. tauto.
  - right. apply string_ltb_iff. split; [assumption|congruence].
Qed.

Lemma string_ltb_asym x y : String.ltb x y = true -> String.ltb y x = true -> False.
Proof.
  intros [H1 Hne]%string_ltb_iff [H2 _]%string_ltb_iff.
  apply Hne. apply (anti_symm String.le); assumption.
Qed.

Lemma string_ltb_trans x y z :
  String.ltb x y = true -> String.ltb y z = true -> String.ltb x z = true.
Proof.
  intros [H1 Hne1]%string_ltb_iff [H2 Hne2]%string_ltb_iff.
  apply string_ltb_iff. split; [etrans; eassumption|].
  intros ->. apply Hne1. apply (anti_symm String.le); assumption.
Qed.

Lemma path_leb_cons x p y q :
  path_leb (x :: p) (y :: q) = true <->
  String.ltb x y = true \/ (x = y /\ path_leb p q = true).
Proof.
  cbn [path_leb]. destruct (String.eqb_spec x y) as [->|Hne].
  - split; [tauto|]. intros [Hlt|[_ H]]; [|exact H].
    exfalso. eapply string_ltb_asym; eassumption.
  - split; [tauto|]. intros [Hlt|[Heq _]]; [exact Hlt|contradiction].
Qed.

#[local] Instance path_le_refl : Reflexive path_le.
Proof.
  intros p. unfold path_le. induction p as [|x p IH]; [reflexivity|].
  apply path_leb_cons. tauto.
Qed.

#[local] Instance path_le_total : Total path_le.
Proof.
  intros p. unfold path_le. induction p as [|x p IH]; intros [|y q].
  - left. reflexivity.
  - left. reflexivity.
  - right. reflexivity.
  - rewrite !path_leb_cons. destruct (decide (x = y)) as [->|Hne].
    + destruct (IH q); tauto.
    + destruct (string_ltb_total x y Hne); tauto.
Qed.

#[local] Instance path_le_trans : Transitive path_le.
Proof.
  intros p. unfold path_le. induction p as [|x p IH]; intros [|y q] [|z r];
    try reflexivity; try discriminate.
  rewrite !path_leb_cons. intros [Hxy|[-> Hpq]] [Hyz|[-> Hqr]].
  - left. eapply string_ltb_trans; eassumption.
  - tauto.
  - tauto.
  - right. split; [reflexivity|]. eapply IH; eassumption.
Qed.

#[local] Instance path_le_antisym : AntiSymm (=) path_le.
Proof.
  intros p. unfold path_le. induction p as [|x p IH]; intros [|y q];
    try reflexivity; try discriminate.
  rewrite !path_leb_cons. intros [Hxy|[-> Hpq]] [Hyx|[Heq Hqp]].
  - exfalso. eapply string_ltb_asym; eassumption.
  - subst. exfalso. eapply string_ltb_asym; eassumption.
  - exfalso. eapply string_ltb_asym; eassumption.
  - f_equal. apply IH; assumption.
Qed.

Lemma sorted_paths_Permutation fs : sorted_paths fs ≡ₚ fs.
Proof. apply merge_sort_Permutation. Qed.

Lemma sorted_paths_sorted fs : StronglySorted path_le (sorted_paths fs).
Proof. apply StronglySorted_merge_sort; apply _. Qed.

(** The sorted list does not depend on the order of the input. *)
Lemma sorted_paths_unique fs gs :
  gs ≡ₚ fs -> StronglySorted path_le gs -> sorted_paths fs = gs.
Proof.
  intros Hperm Hgs. apply (StronglySorted_unique path_le).
  - apply sorted_paths_sorted.
  - exact Hgs.
  - rewrite sorted_paths_Permutation. symmetry. exact Hperm.
Qed.

#[local] Instance sorted_paths_proper : Proper ((≡ₚ) ==> (=)) sorted_paths.
Proof.
  intros fs gs Hperm. apply sorted_paths_unique.
  - rewrite sorted_paths_Permutation. symmetry. exact Hperm.
  - apply sorted_paths_sorted.
Qed.

(** ** The ledger *)



Lemma rstrip_cons c s :
  rstrip (String c s)
  = match rstrip s with
    | EmptyString => if py_isspace c then EmptyString else String c EmptyString
    | r => String c r
    end.
Proof. reflexivity. Qed.

Lemma rstrip_newline s : rstrip (s ++ newline) = rstrip s.
Proof.
  induction s as [|c s IH]; [reflexivity|].
  change (String c s ++ newline)%string with (String c (s ++ newline)).
  rewrite !rstrip_cons, IH. reflexivity.
Qed.


Lemma elem_of_load_foldl lines : forall (acc : gset string) x,
  x ∈ foldl (fun already line => already ∪ {[ strip line ]}) acc lines
  <-> x ∈ acc \/ x ∈ strip <$> lines.
Proof.
  induction lines as [|line lines IH]; intros acc x; simpl.
  - rewrite elem_of_nil. tauto.
  - rewrite IH, elem_of_cons. set_solver.
Qed.

(** The loaded ledger is the set of the stripped lines. *)
Lemma elem_of_load_already_basecalled lines x :
  x ∈ load_already_basecalled (Some lines) <-> x ∈ strip <$> lines.
Proof.
  unfold load_already_basecalled. rewrite elem_of_load_foldl. set_solver.
Qed.

Lemma load_already_basecalled_None : load_already_basecalled None = ∅.
Proof. reflexivity. Qed.




(** ** Batch selection *)






(** ** Duplicate ledger entries *)








(** ** Merging summaries *)


Lemma merge_summary_existing source d :
  merge_summary source (Some d)
  = Some (d ++ filter (fun line => is_header line = false) source).
Proof.
  unfold merge_summary, append_lines. cbn. do 2 f_equal.
  apply list_filter_iff. intros line. unfold is_header.
  destruct (startswith line "filename"); cbn; intuition congruence.
Qed.






(** ** Lines that start with [filename] *)

Lemma read_sequencing_summary_skips first rest1 line rest2 columns :
  is_header line = true ->
  read_sequencing_summary (Some (first :: rest1 ++ line :: rest2)) columns
  = read_sequencing_summary (Some (first :: rest1 ++ rest2)) columns.
Proof.
  intros Hline. unfold read_sequencing_summary. cbn [head default].
  assert (Hrows :
    filter (fun l => ¬ startswith l "filename") (first :: rest1 ++ line :: rest2)
    = filter (fun l => ¬ startswith l "filename") (first :: rest1 ++ rest2)).
  { rewrite !filter_cons, !filter_app.
    rewrite (filter_cons_False _ line); [reflexivity|].
    unfold is_header in Hline. rewrite Hline. intros H. apply H. exact I. }
  rewrite Hrows. reflexivity.
Qed.

(** C9: a line is taken for a header row as soon as it starts with
    [filename].  Merged into a destination that exists, such a line is left
    out, also when it is a row of data; and [read_sequencing_summary] gives
    the same rows whether such a line is in the summary or not. *)
Theorem filename_rows_are_dropped :
  (forall source d line,
     is_header line = true ->
     exists added, merge_summary source (Some d) = Some (d ++ added) /\
                   (line ∉ added) /\
                   forall l, l ∈ added <-> l ∈ source /\ is_header l = false) /\
  (forall first rest1 line rest2 columns,
     is_header line = true ->
     read_sequencing_summary (Some (first :: rest1 ++ line :: rest2)) columns
     = read_sequencing_summary (Some (first :: rest1 ++ rest2)) columns) /\
  merge_summary [header_row; filename_row; plain_row] (Some [header_row])
  = Some [header_row; plain_row] /\
  read_sequencing_summary (Some [header_row; filename_row; plain_row])
    ["sequence_length_template"]
  = Ok [["250"]].
Proof.
  split; [|split; [exact read_sequencing_summary_skips|]].
  - intros source d line Hline. eexists.
    split; [apply merge_summary_existing|].
    split.
    + intros [Hdata _]%list_elem_of_filter. congruence.
    + intros l. rewrite list_elem_of_filter. tauto.
  - split; vm_compute; reflexivity.
Qed.

Lemma filename_rows_are_dropped_witness :
  exists added,
    merge_summary [filename_row; plain_row] (Some [header_row])
    = Some ([header_row] ++ added) /\
    (filename_row ∉ added) /\
    forall l, l ∈ added <-> l ∈ [filename_row; plain_row] /\ is_header l = false.
Proof.
  apply (proj1 filename_rows_are_dropped). reflexivity.
Defined.

(** ** A failed invocation *)


(** What a successful invocation commits, for comparison: the summaries are
    merged and the names of the batch are appended to the ledger. *)
Lemma basecall_reads_success guppy new_fast5s barcodes o t :
  guppy new_fast5s = (0, t) ->
  exists o', basecall_reads guppy new_fast5s barcodes o = Ok o' /\
    basecalled_filenames o'
    = add_to_already_basecalled new_fast5s (basecalled_filenames o) /\
    sequencing_summary o' = merge_all (summary_files t) (sequencing_summary o).
Proof.
  intros Hrun. unfold basecall_reads, execute_with_output. rewrite Hrun.
  rewrite bool_decide_false by (intros H; apply H; reflexivity).
  eexists. split; [reflexivity|]. split; reflexivity.
Qed.



(** ** Barcode distribution: the labels *)

Lemma zero_dict_lookup names : forall (acc : gmap string Z) k,
  foldl (fun d name => <[ name := 0 ]> d) acc names !! k
  = if decide (k ∈ names) then Some 0 else acc !! k.
Proof.
  induction names as [|n names IH]; intros acc k; cbn [foldl].
  - destruct (decide (k ∈ [])) as [H|_]; [|reflexivity].
    apply elem_of_nil in H. contradiction.
  - rewrite IH, lookup_insert.
    destruct (decide (k ∈ names)) as [Hin|Hout].
    + rewrite decide_True by (right; exact Hin). reflexivity.
    + destruct (decide (n = k)) as [->|Hne].
      * rewrite decide_True by left. reflexivity.
      * rewrite decide_False; [reflexivity|].
        rewrite elem_of_cons. intros [->|H]; contradiction.
Qed.

Lemma dom_zero_dict names k : k ∈ dom (zero_dict names) <-> k ∈ names.
Proof.
  rewrite elem_of_dom. unfold zero_dict. rewrite zero_dict_lookup, lookup_empty.
  destruct (decide (k ∈ names)) as [Hin|Hout]; split; intros H.
  - exact Hin.
  - eexists. reflexivity.
  - destruct H as [? H]. discriminate.
  - contradiction.
Qed.

Lemma dict_add_Ok d key v d' :
  dict_add d key v = Ok d' ->
  exists x, d !! key = Some x /\ d' = <[ key := x + v ]> d.
Proof.
  unfold dict_add. destruct (d !! key) as [x|]; [|discriminate].
  intros [= <-]. exists x. split; reflexivity.
Qed.

Lemma dict_add_known d key v :
  key ∈ dom d ->
  exists x, d !! key = Some x /\ dict_add d key v = Ok (<[ key := x + v ]> d).
Proof.
  intros [x Hx]%elem_of_dom. exists x. unfold dict_add. rewrite Hx.
  split; reflexivity.
Qed.


Lemma dom_insert_known (d : gmap string Z) key v :
  key ∈ dom d -> dom (<[ key := v ]> d) = dom d.
Proof. intros Hin. rewrite dom_insert_L. set_solver. Qed.

(** If the loop ends without an exception, it has accepted every row. *)
Lemma count_loop_Ok barcode_data : forall bases reads bases' reads',
  count_loop barcode_data bases reads = Ok (bases', reads') ->
  Forall (counted_row (dom bases)) barcode_data /\ dom bases' = dom bases.
Proof.
  induction barcode_data as [|row data IH]; intros bases reads bases' reads' Hrun.
  - injection Hrun as <- <-. split; [constructor|reflexivity].
  - destruct row as [|len [|label [|? ?]]]; try discriminate Hrun.
    cbn [count_loop] in Hrun.
    destruct (py_int len) as [v|] eqn:Hv; [|discriminate Hrun].
    cbn [mbind result_bind] in Hrun.
    destruct (dict_add bases label v) as [b1|] eqn:Hb; [|discriminate Hrun].
    cbn [mbind result_bind] in Hrun.
    destruct (dict_add reads label 1) as [r1|] eqn:Hr; [|discriminate Hrun].
    cbn [mbind result_bind] in Hrun.
    apply dict_add_Ok in Hb as (x & Hx & ->).
    apply IH in Hrun as [Hrows Hdom].
    rewrite dom_insert_known in Hrows, Hdom by (eapply elem_of_dom_2, Hx).
    split; [|exact Hdom].
    constructor; [|exact Hrows].
    exists len, label, v. repeat split; try assumption.
    eapply elem_of_dom_2, Hx.
Qed.

(** On rows that it accepts, the loop ends without an exception; the keys
    stay, and so does every property of the totals that adding a length
    keeps. *)
Lemma count_loop_accepts (I Q : Z -> Prop) barcode_data :
  (forall x v, I x -> Q v -> I (x + v)) ->
  forall bases reads,
    dom reads = dom bases ->
    map_Forall (fun _ => I) bases ->
    Forall (fun row => exists length label v,
              row = [length; label] /\ py_int length = Ok v /\
              label ∈ dom bases /\ Q v) barcode_data ->
    exists bases' reads',
      count_loop barcode_data bases reads = Ok (bases', reads') /\
      dom bases' = dom bases /\ dom reads' = dom bases /\
      map_Forall (fun _ => I) bases'.
Proof.
  intros Hstep.
  induction barcode_data as [|row data IH]; intros bases reads Hdom HI Hrows.
  - exists bases, reads. repeat split; assumption.
  - apply Forall_cons in Hrows as [(len & label & v & -> & Hv & Hin & HQ) Hrows].
    cbn [count_loop]. rewrite Hv. cbn [mbind result_bind].
    destruct (dict_add_known bases label v Hin) as (x & Hx & ->).
    cbn [mbind result_bind].
    destruct (dict_add_known reads label 1) as (y & Hy & ->);
      [rewrite Hdom; exact Hin|].
    cbn [mbind result_bind].
    destruct (IH (<[ label := x + v ]> bases) (<[ label := y + 1 ]> reads))
      as (b' & r' & Hrun & Hb' & Hr' & HI').
    + rewrite !dom_insert_known; [exact Hdom|exact Hin|rewrite Hdom; exact Hin].
    + apply map_Forall_insert_2; [|exact HI].
      apply Hstep; [|exact HQ]. exact (HI label x Hx).
    + rewrite dom_insert_known by exact Hin. exact Hrows.
    + rewrite dom_insert_known in Hb', Hr' by exact Hin.
      exists b', r'. repeat split; assumption.
Qed.


Lemma barcode_counts_Ok summary barcode_kit data first_barcode last_barcode :
  read_sequencing_summary summary
    ["sequence_length_template"; "barcode_arrangement"] = Ok data ->
  kit_range barcode_kit = Ok (first_barcode, last_barcode) ->
  barcode_counts summary barcode_kit
  = '(bases, reads) ←
      count_loop data (zero_dict (barcode_names first_barcode last_barcode))
                      (zero_dict (barcode_names first_barcode last_barcode));
    Ok (data, barcode_names first_barcode last_barcode, bases, reads).
Proof.
  intros Hread Hkit. unfold barcode_counts. rewrite Hread, Hkit. reflexivity.
Qed.



(** ** Barcode distribution: the percentage *)

Lemma overall_total_bounds (I : Z -> Prop) (bases : gmap string Z) :
  map_Forall (fun _ => I) bases -> Forall I (snd <$> map_to_list bases).
Proof.
  intros HI. apply Forall_fmap. apply map_Forall_to_list in HI.
  eapply Forall_impl; [exact HI|]. intros [k v] Hv. exact Hv.
Qed.

Lemma py_sum_zero l : Forall (fun v => v = 0) l -> py_sum l = 0.
Proof. unfold py_sum. induction 1 as [|x l -> _ IH]; simpl; lia. Qed.


Lemma mapR_Ok {A B} (f : A -> result B) (P : B -> Prop) l :
  Forall (fun x => exists y, f x = Ok y /\ P y) l ->
  exists ys, mapR f l = Ok ys /\ Forall P ys.
Proof.
  induction 1 as [|x l (y & Hy & HP) _ (ys & Hys & HPs)].
  - exists []. split; [reflexivity|constructor].
  - exists (y :: ys). cbn [mapR]. rewrite Hy, Hys.
    split; [reflexivity|constructor; assumption].
Qed.




Lemma barcode_names_cons first_barcode last_barcode :
  exists name names, barcode_names first_barcode last_barcode = name :: names.
Proof.
  unfold barcode_names.
  destruct (_ <$> seqZ first_barcode (last_barcode + 1 - first_barcode))
    as [|name names]; eexists _, _; reflexivity.
Qed.





(** ** Time windows *)

Lemma window_loop_done fuel reads max_time time_window window_start window_end :
  Qltb (inject_Z window_start) max_time = false ->
  window_loop (S fuel) reads max_time time_window window_start window_end
  = Some [].
Proof. intros Hdone. cbn [window_loop]. rewrite Hdone. reflexivity. Qed.

Lemma window_loop_turn fuel reads max_time time_window window_start window_end :
  Qltb (inject_Z window_start) max_time = true ->
  window_loop (S fuel) reads max_time time_window window_start window_end
  = rows ← window_loop fuel reads max_time time_window
             (window_start + time_window) (window_end + time_window);
    Some ({| window_start := window_start; window_end := window_end;
             median_speed :=
               if (0 <? length (window_data reads window_start window_end))%nat
               then Value (median (trans_speed <$>
                                     window_data reads window_start window_end))
               else Blank;
             median_qscore :=
               if (0 <? length (window_data reads window_start window_end))%nat
               then Value (median (qscore <$>
                                     window_data reads window_start window_end))
               else Blank |} :: rows).
Proof.
  intros Hgo. cbn [window_loop]. rewrite Hgo.
  destruct (0 <? length (window_data reads window_start window_end))%nat;
    reflexivity.
Qed.

Lemma Qltb_lt x y : Qltb x y = true <-> (x < y)%Q.
Proof.
  unfold Qltb. rewrite negb_true_iff. split.
  - intros H. apply Qnot_le_lt. intros Hle. apply Qle_bool_iff in Hle. congruence.
  - intros H. destruct (Qle_bool y x) eqn:Hle; [|reflexivity].
    apply Qle_bool_iff in Hle. exfalso. exact (Qlt_not_le _ _ H Hle).
Qed.

Lemma Qltb_ge x y : Qltb x y = false <-> (y <= x)%Q.
Proof.
  unfold Qltb. rewrite negb_false_iff. apply Qle_bool_iff.
Qed.

(** For a positive width the loop ends: [fuel] turns are enough as soon as
    [fuel] windows reach the greatest read time. *)
Lemma window_loop_terminates reads max_time time_window :
  0 < time_window ->
  forall fuel window_start window_end,
    (max_time <= inject_Z (window_start + Z.of_nat fuel * time_window))%Q ->
    exists rows,
      window_loop (S fuel) reads max_time time_window window_start window_end
      = Some rows.
Proof.
  intros Hw. induction fuel as [|fuel IH]; intros s e Hmax.
  - exists []. apply window_loop_done. apply Qltb_ge.
    replace (s + Z.of_nat 0 * time_window) with s in Hmax by lia. exact Hmax.
  - destruct (Qltb (inject_Z s) max_time) eqn:Hgo.
    + rewrite window_loop_turn by exact Hgo.
      destruct (IH (s + time_window) (e + time_window)) as [rows ->].
      * replace (s + time_window + Z.of_nat fuel * time_window)
          with (s + Z.of_nat (S fuel) * time_window) by lia.
        exact Hmax.
      * eexists. reflexivity.
    + exists []. apply window_loop_done. exact Hgo.
Qed.

(** The windows that the loop writes from [window_start] on start there or
    later. *)
Lemma window_loop_starts reads max_time time_window :
  0 < time_window ->
  forall fuel start stop rows,
    window_loop fuel reads max_time time_window start stop = Some rows ->
    Forall (fun r => start <= window_start r) rows.
Proof.
  intros Hw. induction fuel as [|fuel IH]; intros s e rows Hrun;
    [discriminate Hrun|].
  destruct (Qltb (inject_Z s) max_time) eqn:Hgo.
  - rewrite window_loop_turn in Hrun by exact Hgo.
    destruct (window_loop fuel reads max_time time_window
                (s + time_window) (e + time_window)) as [rows'|] eqn:Hrest;
      [|discriminate Hrun].
    injection Hrun as <-. constructor; [cbn; lia|].
    eapply Forall_impl; [exact (IH _ _ _ Hrest)|]. cbn. intros r Hr. lia.
  - rewrite window_loop_done in Hrun by exact Hgo. injection Hrun as <-.
    constructor.
Qed.

Lemma windows_holding_cons r rows t :
  windows_holding (r :: rows) t
  = ((if Qle_bool (inject_Z (window_start r)) t
         && Qltb t (inject_Z (window_end r)) then 1 else 0)
     + windows_holding rows t)%nat.
Proof.
  unfold windows_holding. rewrite filter_cons.
  destruct (Qle_bool (inject_Z (window_start r)) t
            && Qltb t (inject_Z (window_end r))).
  - rewrite decide_True by reflexivity. reflexivity.
  - rewrite decide_False by discriminate. reflexivity.
Qed.

Lemma windows_holding_before rows t :
  Forall (fun r => (t < inject_Z (window_start r))%Q) rows ->
  windows_holding rows t = O.
Proof.
  induction 1 as [|r rows Hr _ IH]; [reflexivity|].
  rewrite windows_holding_cons, IH.
  replace (Qle_bool (inject_Z (window_start r)) t) with false; [reflexivity|].
  symmetry. destruct (Qle_bool (inject_Z (window_start r)) t) eqn:Hle;
    [|reflexivity].
  apply Qle_bool_iff in Hle. exfalso. exact (Qlt_not_le _ _ Hr Hle).
Qed.

(** The window of [t] is the multiple of the width just below [t]. *)
Lemma window_of_unique t time_window j :
  0 < time_window ->
  (inject_Z (j * time_window) <= t)%Q ->
  (t < inject_Z (j * time_window + time_window))%Q ->
  window_of t time_window = j * time_window.
Proof.
  intros Hw Hlo Hhi. unfold window_of. f_equal.
  assert (Hwq : (0 < inject_Z time_window)%Q)
    by (rewrite <- (Zlt_Qlt 0); exact Hw).
  apply Z.le_antisymm.
  - apply Z.lt_succ_r. rewrite Zlt_Qlt.
    eapply Qle_lt_trans; [apply Qfloor_le|].
    apply Qlt_shift_div_r; [exact Hwq|].
    rewrite <- inject_Z_mult.
    replace (Z.succ j * time_window) with (j * time_window + time_window)
      by lia.
    exact Hhi.
  - rewrite <- (Qfloor_Z j). apply Qfloor_resp_le.
    apply Qle_shift_div_l; [exact Hwq|].
    rewrite <- inject_Z_mult. exact Hlo.
Qed.

Lemma window_of_ge t time_window j :
  0 < time_window ->
  (inject_Z (j * time_window) <= t)%Q ->
  j * time_window <= window_of t time_window.
Proof.
  intros Hw Hlo. unfold window_of.
  assert (Hwq : (0 < inject_Z time_window)%Q)
    by (rewrite <- (Zlt_Qlt 0); exact Hw).
  apply Z.mul_le_mono_nonneg_r; [lia|].
  rewrite <- (Qfloor_Z j). apply Qfloor_resp_le.
  apply Qle_shift_div_l; [exact Hwq|].
  rewrite <- inject_Z_mult. exact Hlo.
Qed.

(** What the report holds: a time at or after the first window is in one
    window, its own, if that window starts below the greatest read time,
    and in no window otherwise. *)
Lemma window_loop_holding reads max_time time_window :
  0 < time_window ->
  forall fuel j rows,
    window_loop fuel reads max_time time_window
      (j * time_window) (j * time_window + time_window) = Some rows ->
    forall t,
      (inject_Z (j * time_window) <= t)%Q ->
      windows_holding rows t
      = if Qltb (inject_Z (window_of t time_window)) max_time then 1%nat
        else O.
Proof.
  intros Hw. induction fuel as [|fuel IH]; intros j rows Hrun t Ht;
    [discriminate Hrun|].
  destruct (Qltb (inject_Z (j * time_window)) max_time) eqn:Hgo.
  - rewrite window_loop_turn in Hrun by exact Hgo.
    destruct (window_loop fuel reads max_time time_window _ _)
      as [rows'|] eqn:Hrest; [|discriminate Hrun].
    injection Hrun as <-. rewrite windows_holding_cons.
    cbn [window_start window_end].
    replace (Qle_bool (inject_Z (j * time_window)) t) with true
      by (symmetry; apply Qle_bool_iff; exact Ht).
    cbn [andb].
    destruct (Qltb t (inject_Z (j * time_window + time_window))) eqn:Hin.
    + apply Qltb_lt in Hin.
      rewrite (window_of_unique t time_window j Hw Ht Hin), Hgo.
      rewrite windows_holding_before; [reflexivity|].
      eapply Forall_impl;
        [exact (window_loop_starts _ _ _ Hw _ _ _ _ Hrest)|].
      intros r Hr. cbn in Hr. eapply Qlt_le_trans; [exact Hin|].
      rewrite <- Zle_Qle. exact Hr.
    + apply Qltb_ge in Hin. cbn [Nat.add].
      replace (j * time_window + time_window) with ((j + 1) * time_window)
        in Hrest, Hin by lia.
      apply (IH (j + 1)); [|exact Hin].
      replace ((j + 1) * time_window + time_window)
        with ((j + 1) * time_window + time_window) by lia.
      exact Hrest.
  - rewrite window_loop_done in Hrun by exact Hgo. injection Hrun as <-.
    replace (Qltb (inject_Z (window_of t time_window)) max_time) with false;
      [reflexivity|].
    symmetry. apply Qltb_ge. apply Qltb_ge in Hgo.
    eapply Qle_trans; [exact Hgo|]. rewrite <- Zle_Qle.
    apply window_of_ge; assumption.
Qed.

Lemma window_of_le t time_window :
  0 < time_window -> (inject_Z (window_of t time_window) <= t)%Q.
Proof.
  intros Hw. unfold window_of.
  assert (Hwq : (0 < inject_Z time_window)%Q)
    by (rewrite <- (Zlt_Qlt 0); exact Hw).
  rewrite inject_Z_mult.
  eapply Qle_trans.
  - apply Qmult_le_compat_r; [apply Qfloor_le|]. apply Qlt_le_weak, Hwq.
  - rewrite Qmult_comm, Qmult_div_r; [apply Qle_refl|].
    intros H0. rewrite H0 in Hwq. exact (Qlt_irrefl _ Hwq).
Qed.

(** The report of a positive width, with enough fuel. *)
Lemma translocation_speed_rows_terminates reads time_window :
  0 < time_window ->
  exists fuel rows, translocation_speed_rows fuel reads time_window = Some rows.
Proof.
  intros Hw. unfold translocation_speed_rows.
  set (M := max_read_time reads).
  destruct (window_loop_terminates reads M time_window Hw
              (Z.to_nat (Qceiling M)) 0 time_window) as [rows Hrows].
  - eapply Qle_trans; [apply Qle_ceiling|]. rewrite <- Zle_Qle. nia.
  - exists (S (Z.to_nat (Qceiling M))), rows. exact Hrows.
Qed.

Lemma translocation_speed_rows_holding fuel reads time_window rows t :
  0 < time_window ->
  translocation_speed_rows fuel reads time_window = Some rows ->
  (0 <= t)%Q ->
  windows_holding rows t
  = if Qltb (inject_Z (window_of t time_window)) (max_read_time reads)
    then 1%nat else O.
Proof.
  intros Hw Hrun Ht. unfold translocation_speed_rows in Hrun.
  apply (window_loop_holding reads (max_read_time reads) time_window Hw fuel 0).
  - exact Hrun.
  - exact Ht.
Qed.

(** Where the report agrees with the partition into windows: a read before
    the greatest read time is in one window. *)
Lemma read_before_last_is_in_one_window fuel reads time_window rows t :
  0 < time_window ->
  translocation_speed_rows fuel reads time_window = Some rows ->
  (0 <= t)%Q -> (t < max_read_time reads)%Q ->
  windows_holding rows t = 1%nat.
Proof.
  intros Hw Hrun H0 Hlt.
  rewrite (translocation_speed_rows_holding _ _ _ _ _ Hw Hrun H0).
  replace (Qltb (inject_Z (window_of t time_window)) (max_read_time reads))
    with true; [reflexivity|].
  symmetry. apply Qltb_lt. eapply Qle_lt_trans; [|exact Hlt].
  apply window_of_le, Hw.
Qed.

(** Where it does not: when the greatest read time is a multiple of the
    width, the reads at that time are in no window. *)
Lemma read_at_last_multiple_is_in_no_window fuel reads time_window rows k t :
  0 < time_window -> 0 <= k ->
  translocation_speed_rows fuel reads time_window = Some rows ->
  (max_read_time reads == inject_Z (k * time_window))%Q ->
  (t == max_read_time reads)%Q ->
  windows_holding rows t = O.
Proof.
  intros Hw Hk Hrun Hmax Ht.
  assert (Htk : (t == inject_Z (k * time_window))%Q)
    by (rewrite Ht; exact Hmax).
  rewrite (translocation_speed_rows_holding _ _ _ _ _ Hw Hrun).
  - rewrite (window_of_unique t time_window k Hw).
    + replace (Qltb (inject_Z (k * time_window)) (max_read_time reads))
        with false; [reflexivity|].
      symmetry. apply Qltb_ge. rewrite Hmax. apply Qle_refl.
    + rewrite Htk. apply Qle_refl.
    + rewrite Htk, <- Zlt_Qlt. lia.
  - rewrite Htk, <- (Zle_Qle 0). nia.
Qed.

(** C4, on the code: the loop writes a window only while its start is below
    the greatest read time, so a read at that time is in no window when the
    time is a multiple of the width.  A single read at minute 0 gives a
    report without rows; of two reads at minutes 30 and 60 the report has
    the window from 0 to 60 only, which holds the first read and not the
    second. *)
Theorem read_at_last_boundary_is_in_no_window :
  forall fuel,
    translocation_speed_rows (S fuel) [read_at 0] 60 = Some [] /\
    exists speed quality,
      translocation_speed_rows (S (S fuel)) [read_at 30; read_at 60] 60
      = Some [{| window_start := 0; window_end := 60;
                 median_speed := Value speed; median_qscore := Value quality |}]
      /\ windows_holding
           [{| window_start := 0; window_end := 60;
               median_speed := Value speed; median_qscore := Value quality |}]
           (read_time (read_at 60)) = O.
Proof.
  intros fuel. split.
  - unfold translocation_speed_rows. apply window_loop_done. reflexivity.
  - unfold translocation_speed_rows.
    rewrite window_loop_turn by reflexivity.
    rewrite window_loop_done by reflexivity.
    eexists _, _. split; [reflexivity|]. reflexivity.
Qed.

(** * Further properties of the code *)

(** ** N50 and the order of the reads *)

#[local] Instance Zge_antisym : AntiSymm (=) Z.ge.
Proof. intros x y. lia. Qed.

Lemma sorted_reverse_unique l l' : l ≡ₚ l' -> sorted_reverse l = sorted_reverse l'.
Proof.
  intros Hperm. apply (StronglySorted_unique Z.ge).
  - apply sorted_reverse_sorted.
  - apply sorted_reverse_sorted.
  - rewrite !sorted_reverse_Permutation. exact Hperm.
Qed.

(** The N50 does not depend on the order in which the lengths are given:
    neither the value nor the exception. *)
Theorem get_n50_Permutation l l' : l ≡ₚ l' -> get_n50 l = get_n50 l'.
Proof.
  intros Hperm. unfold get_n50.
  rewrite (sorted_reverse_unique l l' Hperm). reflexivity.
Qed.

Lemma get_n50_Permutation_witness :
  get_n50 [150; 4000; 720; 4000] = get_n50 [4000; 720; 150; 4000].
Proof.
  apply get_n50_Permutation.
  exact (Permutation_middle [4000; 720] [4000] 150).
Defined.

(** ** Reading the summary *)

Lemma mapR_Forall2 {A B} (f : A -> result B) l ys :
  mapR f l = Ok ys -> Forall2 (fun x y => f x = Ok y) l ys.
Proof.
  revert ys. induction l as [|x l IH]; intros ys Hrun.
  - injection Hrun as <-. constructor.
  - cbn [mapR] in Hrun. destruct (f x) as [y|] eqn:Hy; [|discriminate Hrun].
    cbn [mbind result_bind] in Hrun.
    destruct (mapR f l) as [ys'|]; [|discriminate Hrun].
    injection Hrun as <-. constructor; [exact Hy|]. apply IH. reflexivity.
Qed.

Lemma mapR_Raise {A B} (f : A -> result B) l e :
  mapR f l = Raise e -> exists x, x ∈ l /\ f x = Raise e.
Proof.
  induction l as [|x l IH]; intros Hrun; [discriminate Hrun|].
  cbn [mapR] in Hrun. destruct (f x) as [y|e'] eqn:Hy.
  - cbn [mbind result_bind] in Hrun.
    destruct (mapR f l) as [ys'|e'']; [discriminate Hrun|].
    injection Hrun as ->. destruct IH as (x' & Hin & Hx'); [reflexivity|].
    exists x'. split; [right; exact Hin|exact Hx'].
  - injection Hrun as ->. exists x. split; [left|exact Hy].
Qed.

Lemma mapR_all_Ok {A B} (f : A -> result B) l :
  Forall (fun x => exists y, f x = Ok y) l -> exists ys, mapR f l = Ok ys.
Proof.
  intros Hall.
  destruct (mapR_Ok f (fun _ => True) l) as (ys & Hys & _).
  - eapply Forall_impl; [exact Hall|]. intros x [y Hy]. exists y. tauto.
  - exists ys. exact Hys.
Qed.

(** [l.index(x)] is the first place of [x]. *)
Lemma list_index_Ok l x i :
  list_index l x = Ok i <->
  l !! i = Some x /\ forall j, (j < i)%nat -> l !! j <> Some x.
Proof.
  revert i. induction l as [|y l IH]; intros i; cbn [list_index].
  - split; [discriminate|]. intros [H _]. destruct i; discriminate H.
  - destruct (String.eqb_spec y x) as [->|Hne].
    + split.
      * intros [= <-]. split; [reflexivity|]. intros j Hj. lia.
      * intros [Hi Hfirst]. destruct i as [|i]; [reflexivity|].
        exfalso. apply (Hfirst O); [lia|reflexivity].
    + assert (Hshift : forall r : result nat, forall k,
                (S <$> r = Ok k) <-> exists k', k = S k' /\ r = Ok k').
      { intros [k'|e] k; cbn; split.
        - intros [= <-]. exists k'. split; reflexivity.
        - intros (k'' & -> & [= ->]). reflexivity.
        - discriminate.
        - intros (k'' & _ & H). discriminate H. }
      rewrite Hshift. split.
      * intros (i' & -> & Hi'). apply IH in Hi' as [Hi' Hfirst].
        split; [exact Hi'|]. intros [|j] Hj; [cbn; congruence|].
        apply Hfirst. lia.
      * intros [Hi Hfirst]. destruct i as [|i]; [cbn in Hi; congruence|].
        exists i. split; [reflexivity|]. apply IH. split; [exact Hi|].
        intros j Hj. apply (Hfirst (S j)). lia.
Qed.

Lemma list_index_Raise l x e : list_index l x = Raise e -> e = ValueError /\ x ∉ l.
Proof.
  induction l as [|y l IH]; cbn [list_index].
  - intros [= <-]. split; [reflexivity|]. apply not_elem_of_nil.
  - destruct (String.eqb_spec y x) as [->|Hne]; [discriminate|].
    destruct (list_index l x) as [k|e'] eqn:Hk; [discriminate|].
    cbn. intros [= <-]. destruct (IH eq_refl) as [-> Hout].
    split; [reflexivity|]. rewrite elem_of_cons. intros [->|Hin]; contradiction.
Qed.

Lemma getitem_Ok {A} (l : list A) i x : getitem l i = Ok x <-> l !! i = Some x.
Proof.
  unfold getitem. destruct (l !! i); split; intros H; congruence.
Qed.

Lemma getitem_Raise {A} (l : list A) i e :
  getitem l i = Raise e -> e = IndexError /\ (length l <= i)%nat.
Proof.
  unfold getitem. destruct (l !! i) eqn:Hi; [discriminate|].
  intros [= <-]. split; [reflexivity|]. apply lookup_ge_None, Hi.
Qed.

Lemma Forall2_compose {A B C} (P : A -> B -> Prop) (Q : B -> C -> Prop)
    (R : A -> C -> Prop) l1 l2 l3 :
  (forall a b c, P a b -> Q b c -> R a c) ->
  Forall2 P l1 l2 -> Forall2 Q l2 l3 -> Forall2 R l1 l3.
Proof.
  intros HPQ H12. revert l3.
  induction H12 as [|a b l1 l2 Hab _ IH]; intros l3 H23.
  - inversion H23. constructor.
  - inversion H23 as [|b' c l2' l3' Hbc H23']; subst.
    constructor; [eapply HPQ; eassumption|]. apply IH, H23'.
Qed.

Lemma length_data_lines lines :
  (length (data_lines lines) + count_headers lines = length lines)%nat.
Proof.
  unfold data_lines, count_headers, is_header.
  induction lines as [|line lines IH]; [reflexivity|].
  rewrite !filter_cons.
  destruct (startswith line "filename") eqn:Hline.
  - rewrite decide_False by (intros H; apply H; exact I).
    rewrite decide_True by reflexivity. cbn [length]. lia.
  - rewrite decide_True by (intros []).
    rewrite decide_False by discriminate. cbn [length]. lia.
Qed.

(** What [read_sequencing_summary] returns: one row for each line that does
    not start with [filename], in the order of the file, and in each row,
    for each requested column, the field of the line at the first place
    where the first line of the file has the name of the column. *)
Theorem read_sequencing_summary_rows lines columns data :
  read_sequencing_summary (Some lines) columns = Ok data ->
  Forall2
    (fun line row =>
       Forall2
         (fun column value =>
            exists i, first_index (fields (default "" (head lines))) column i
                      /\ fields line !! i = Some value)
         columns row)
    (data_lines lines) data /\
  (length data + count_headers lines = length lines)%nat /\
  Forall (fun row => length row = length columns) data.
Proof.
  intros Hrun. unfold read_sequencing_summary in Hrun.
  fold (fields (default "" (head lines))) in Hrun.
  destruct (mapR (list_index (fields (default "" (head lines)))) columns)
    as [column_numbers|] eqn:Hcols; [|discriminate Hrun].
  cbn [mbind result_bind] in Hrun. fold (data_lines lines) in Hrun.
  apply mapR_Forall2 in Hcols, Hrun.
  assert (Hrows : Forall2
    (fun line row =>
       Forall2
         (fun column value =>
            exists i, first_index (fields (default "" (head lines))) column i
                      /\ fields line !! i = Some value)
         columns row)
    (data_lines lines) data).
  { eapply Forall2_impl; [exact Hrun|]. intros line row Hrow.
    apply mapR_Forall2 in Hrow.
    eapply Forall2_compose; [|exact Hcols|exact Hrow].
    intros column i value Hi Hvalue. exists i. split.
    - apply list_index_Ok, Hi.
    - apply getitem_Ok, Hvalue. }
  split; [exact Hrows|]. split.
  - rewrite <- (Forall2_length _ _ _ Hrows). apply length_data_lines.
  - apply Forall_forall. intros row Hrow.
    apply list_elem_of_lookup in Hrow as [k Hk].
    destruct (Forall2_lookup_r _ _ _ _ _ Hrows Hk) as (line & _ & Hline).
    symmetry. exact (Forall2_length _ _ _ Hline).
Qed.

Lemma read_sequencing_summary_rows_witness :
  (length [["r1"; "250"]] + count_headers [header_row; plain_row]
   = length [header_row; plain_row])%nat.
Proof.
  refine (proj1 (proj2 (read_sequencing_summary_rows
            [header_row; plain_row] ["run_id"; "sequence_length_template"]
            [["r1"; "250"]] _))).
  vm_compute. reflexivity.
Defined.

Lemma list_index_elem l x : x ∈ l -> exists i, list_index l x = Ok i.
Proof.
  intros Hin. destruct (list_index l x) as [i|e] eqn:Hi.
  - exists i. reflexivity.
  - apply list_index_Raise in Hi as [_ Hout]. contradiction.
Qed.

(** How [read_sequencing_summary] fails: [FileNotFoundError] without the
    file; [ValueError] when a requested column is not named in the first
    line; otherwise only [IndexError], and only when a line that is not
    skipped has fewer fields than the first line; so it returns when every
    requested column is named and no such line is shorter than the first. *)
Theorem read_sequencing_summary_errors :
  (forall columns,
     read_sequencing_summary None columns = Raise FileNotFoundError) /\
  (forall lines columns c,
     c ∈ columns -> c ∉ fields (default "" (head lines)) ->
     read_sequencing_summary (Some lines) columns = Raise ValueError) /\
  (forall lines columns e,
     (forall c, c ∈ columns -> c ∈ fields (default "" (head lines))) ->
     read_sequencing_summary (Some lines) columns = Raise e ->
     e = IndexError /\
     exists line, line ∈ data_lines lines /\
       (length (fields line) < length (fields (default "" (head lines))))%nat) /\
  (forall lines columns,
     (forall c, c ∈ columns -> c ∈ fields (default "" (head lines))) ->
     Forall (fun line =>
               (length (fields (default "" (head lines)))
                <= length (fields line))%nat) (data_lines lines) ->
     exists data, read_sequencing_summary (Some lines) columns = Ok data).
Proof.
  assert (Hindex : forall lines columns e,
    (forall c, c ∈ columns -> c ∈ fields (default "" (head lines))) ->
    read_sequencing_summary (Some lines) columns = Raise e ->
    e = IndexError /\
    exists line, line ∈ data_lines lines /\
      (length (fields line) < length (fields (default "" (head lines))))%nat).
  { intros lines columns e Hnamed Hrun. unfold read_sequencing_summary in Hrun.
    fold (fields (default "" (head lines))) in Hrun.
    destruct (mapR_all_Ok (list_index (fields (default "" (head lines))))
                columns) as [column_numbers Hcols].
    { apply Forall_forall. intros c Hc. apply list_index_elem, Hnamed, Hc. }
    rewrite Hcols in Hrun. cbn [mbind result_bind] in Hrun.
    fold (data_lines lines) in Hrun.
    apply mapR_Raise in Hrun as (line & Hline & Hrow).
    apply mapR_Raise in Hrow as (i & Hi & Hget).
    apply getitem_Raise in Hget as [-> Hshort].
    split; [reflexivity|]. exists line. split; [exact Hline|].
    fold (fields line) in Hshort.
    apply mapR_Forall2 in Hcols.
    apply list_elem_of_lookup in Hi as [k Hk].
    destruct (Forall2_lookup_r _ _ _ _ _ Hcols Hk) as (c & _ & Hc).
    apply list_index_Ok in Hc as [Hc _]. apply lookup_lt_Some in Hc. lia. }
  split; [reflexivity|]. split; [|split; [exact Hindex|]].
  - intros lines columns c Hc Hout. unfold read_sequencing_summary.
    fold (fields (default "" (head lines))).
    destruct (mapR (list_index (fields (default "" (head lines)))) columns)
      as [column_numbers|e] eqn:Hcols.
    + exfalso. apply mapR_Forall2 in Hcols.
      apply list_elem_of_lookup in Hc as [k Hk].
      destruct (Forall2_lookup_l _ _ _ _ _ Hcols Hk) as (i & _ & Hi).
      apply list_index_Ok in Hi as [Hi _].
      apply Hout. eapply list_elem_of_lookup_2, Hi.
    + apply mapR_Raise in Hcols as (c' & _ & Hc').
      apply list_index_Raise in Hc' as [-> _]. reflexivity.
  - intros lines columns Hnamed Hlong.
    destruct (read_sequencing_summary (Some lines) columns) as [data|e] eqn:Hrun.
    + exists data. reflexivity.
    + exfalso. destruct (Hindex _ _ _ Hnamed Hrun) as (_ & line & Hline & Hshort).
      rewrite Forall_forall in Hlong. specialize (Hlong line Hline). lia.
Qed.

Lemma read_sequencing_summary_errors_witness :
  read_sequencing_summary (Some [header_row; plain_row]) ["duration"]
  = Raise ValueError /\
  exists data,
    read_sequencing_summary (Some [header_row; plain_row]) ["run_id"] = Ok data.
Proof.
  split.
  - apply (proj1 (proj2 read_sequencing_summary_errors) _ _ "duration").
    + left.
    + refine (bool_decide_unpack _ _). vm_compute. exact I.
  - apply (proj2 (proj2 (proj2 read_sequencing_summary_errors))).
    + intros c Hc. apply list_elem_of_singleton in Hc as ->.
      refine (bool_decide_unpack _ _). vm_compute. exact I.
    + refine (bool_decide_unpack _ _). vm_compute. exact I.
Defined.

(** ** The names of the barcodes *)

(** The decimal writing of a positive number does not start with a zero. *)
Lemma pretty_N_go_no_leading_zero x : forall s t,
  (0 < x)%N -> pretty_N_go x s <> String "0" t.
Proof.
  induction (N.lt_wf_0 x) as [x _ IH]; intros s t Hx.
  rewrite pretty_N_go_step by exact Hx.
  destruct (decide (x `div` 10 = 0)%N) as [Hsmall|Hbig].
  - rewrite Hsmall, pretty_N_go_0.
    assert (Hlt : (x < 10)%N).
    { pose proof (N.div_mod x 10 ltac:(lia)) as Hdm.
      pose proof (N.mod_lt x 10 ltac:(lia)) as Hm.
      rewrite Hsmall in Hdm. lia. }
    rewrite N.mod_small by exact Hlt.
    assert (x = 1 \/ x = 2 \/ x = 3 \/ x = 4 \/ x = 5 \/ x = 6
            \/ x = 7 \/ x = 8 \/ x = 9)%N as Hcases by lia.
    decompose [or] Hcases; subst x; discriminate.
  - apply IH; [apply N.div_lt; lia|apply N.neq_0_lt_0, Hbig].
Qed.

Lemma pretty_Z_no_leading_zero i t : i < 0 \/ 10 <= i -> pretty i <> String "0" t.
Proof.
  intros Hi. destruct i as [|p|p]; [lia| |discriminate].
  unfold pretty, pretty_Z, pretty, pretty_positive, pretty, pretty_N.
  rewrite decide_False by discriminate.
  apply pretty_N_go_no_leading_zero. lia.
Qed.

#[local] Instance format_02_inj : Inj (=) (=) format_02.
Proof.
  intros i j. unfold format_02.
  destruct ((0 <=? i) && (i <? 10)) eqn:Hi;
    destruct ((0 <=? j) && (j <? 10)) eqn:Hj; intros Heq.
  - injection Heq as Heq. exact (pretty_Z_inj _ _ Heq).
  - exfalso. symmetry in Heq. revert Heq. apply pretty_Z_no_leading_zero. lia.
  - exfalso. revert Heq. apply pretty_Z_no_leading_zero. lia.
  - exact (pretty_Z_inj _ _ Heq).
Qed.

(** The names of the barcodes of a kit are different from each other. *)
Lemma NoDup_barcode_names first_barcode last_barcode :
  NoDup (barcode_names first_barcode last_barcode).
Proof.
  unfold barcode_names. apply NoDup_app. split; [|split].
  - apply NoDup_fmap_2; [|apply NoDup_seqZ].
    intros i j Heq. injection Heq as Heq. exact (format_02_inj _ _ Heq).
  - intros name Hname Hun. apply list_elem_of_singleton in Hun as ->.
    apply list_elem_of_fmap in Hname as (i & Hi & _). discriminate Hi.
  - apply NoDup_singleton.
Qed.

(** ** The rows of the barcode distribution *)

Lemma lengths_of_cons length label barcode_data k :
  lengths_of ([length; label] :: barcode_data) k
  = if decide (label = k)
    then v ← py_int length; l ← lengths_of barcode_data k; Ok (v :: l)
    else lengths_of barcode_data k.
Proof.
  unfold lengths_of. rewrite filter_cons.
  destruct (decide (label = k)) as [->|Hne].
  - rewrite decide_True by reflexivity. reflexivity.
  - rewrite decide_False; [reflexivity|]. cbn. congruence.
Qed.

(** After the counting loop, the entry of each label has grown by the reads
    of that label: by their number in [reads], by the sum of their lengths
    in [bases]. *)
Lemma count_loop_per_label barcode_data : forall bases reads bases' reads',
  count_loop barcode_data bases reads = Ok (bases', reads') ->
  forall k, exists l,
    lengths_of barcode_data k = Ok l /\
    bases' !! k = (fun x => x + py_sum l) <$> (bases !! k) /\
    reads' !! k = (fun x => x + Z.of_nat (length l)) <$> (reads !! k).
Proof.
  induction barcode_data as [|row data IH]; intros bases reads bases' reads' Hrun k.
  - injection Hrun as <- <-. exists []. split; [reflexivity|].
    split; [destruct (bases !! k)|destruct (reads !! k)]; cbn;
      try reflexivity; f_equal; unfold py_sum; cbn; lia.
  - destruct row as [|len [|label [|? ?]]]; try discriminate Hrun.
    cbn [count_loop] in Hrun.
    destruct (py_int len) as [v|] eqn:Hv; [|discriminate Hrun].
    cbn [mbind result_bind] in Hrun.
    destruct (dict_add bases label v) as [b1|] eqn:Hb; [|discriminate Hrun].
    cbn [mbind result_bind] in Hrun.
    destruct (dict_add reads label 1) as [r1|] eqn:Hr; [|discriminate Hrun].
    cbn [mbind result_bind] in Hrun.
    apply dict_add_Ok in Hb as (x & Hx & ->).
    apply dict_add_Ok in Hr as (y & Hy & ->).
    destruct (IH _ _ _ _ Hrun k) as (l & Hl & Hbases & Hreads).
    rewrite lengths_of_cons, Hv, Hl. cbn [mbind result_bind].
    rewrite Hbases, Hreads.
    destruct (decide (label = k)) as [->|Hne].
    + exists (v :: l). split; [reflexivity|].
      rewrite !lookup_insert_eq, Hx, Hy. cbn. unfold py_sum. cbn.
      split; f_equal; lia.
    + exists l. split; [reflexivity|].
      rewrite !lookup_insert_ne by exact Hne. split; reflexivity.
Qed.

(** After the loop that fills [n50s], each name has the N50 of the lengths
    of its reads. *)
Lemma n50_dict_lookup barcode_data names : forall acc n50s,
  n50_dict barcode_data names acc = Ok n50s ->
  forall k,
    (k ∈ names ->
     exists l n, lengths_of barcode_data k = Ok l /\ get_n50 l = Ok n /\
                 n50s !! k = Some n) /\
    (k ∉ names -> n50s !! k = acc !! k).
Proof.
  induction names as [|name names IH]; intros acc n50s Hrun k.
  - injection Hrun as <-. split; [|reflexivity].
    intros Hin. apply elem_of_nil in Hin. contradiction.
  - cbn [n50_dict] in Hrun.
    destruct (lengths_of barcode_data name) as [l|] eqn:Hl; [|discriminate Hrun].
    cbn [mbind result_bind] in Hrun.
    destruct (get_n50 l) as [n|] eqn:Hn; [|discriminate Hrun].
    cbn [mbind result_bind] in Hrun.
    destruct (IH _ _ Hrun k) as [Hin Hout]. split.
    + intros Hk. destruct (decide (k ∈ names)) as [Hnames|Hnames];
        [exact (Hin Hnames)|].
      apply elem_of_cons in Hk as [->|Hk]; [|contradiction].
      exists l, n. split; [exact Hl|]. split; [exact Hn|].
      rewrite (Hout Hnames). apply lookup_insert_eq.
    + intros Hk. apply not_elem_of_cons in Hk as [Hne Hnames].
      rewrite (Hout Hnames). apply lookup_insert_ne. congruence.
Qed.

Lemma zero_dict_Some names k : k ∈ names -> zero_dict names !! k = Some 0.
Proof.
  intros Hin. unfold zero_dict. rewrite zero_dict_lookup.
  rewrite decide_True by exact Hin. reflexivity.
Qed.

(** What the barcode distribution reports: one row for each name of the
    kit and one for [unclassified], in that order, and in each row the
    number of the reads with that label, the sum of their lengths and the
    N50 of their lengths. *)
Theorem barcode_distribution_rows summary barcode_kit data
    first_barcode last_barcode rows :
  read_sequencing_summary summary
    ["sequence_length_template"; "barcode_arrangement"] = Ok data ->
  kit_range barcode_kit = Ok (first_barcode, last_barcode) ->
  barcode_distribution_summary summary barcode_kit = Ok rows ->
  row_name <$> rows = barcode_names first_barcode last_barcode /\
  Forall (fun row =>
            exists l, lengths_of data (row_name row) = Ok l /\
                      row_reads row = Z.of_nat (length l) /\
                      row_bases row = py_sum l /\
                      get_n50 l = Ok (row_n50 row)) rows.
Proof.
  intros Hread Hkit Hrun. unfold barcode_distribution_summary in Hrun.
  rewrite (barcode_counts_Ok _ _ _ _ _ Hread Hkit) in Hrun.
  set (names := barcode_names first_barcode last_barcode) in *.
  destruct (count_loop data _ _) as [[bases reads]|] eqn:Hcount;
    [|discriminate Hrun].
  cbn [mbind result_bind] in Hrun. unfold barcode_rows in Hrun.
  destruct (n50_dict data names ∅) as [n50s|] eqn:Hn50s; [|discriminate Hrun].
  cbn [mbind result_bind] in Hrun. apply mapR_Forall2 in Hrun.
  assert (Hrows : Forall2
    (fun name row =>
       row_name row = name /\ name ∈ names /\
       bases !! name = Some (row_bases row) /\
       reads !! name = Some (row_reads row) /\
       n50s !! name = Some (row_n50 row)) names rows).
  { apply Forall2_same_length_lookup. split; [exact (Forall2_length _ _ _ Hrun)|].
    intros i name row Hname Hrow.
    pose proof (Forall2_lookup_lr _ _ _ _ _ _ Hrun Hname Hrow) as Hbody.
    cbn beta in Hbody. unfold dict_get in Hbody.
    destruct (bases !! name) as [b|]; [|discriminate Hbody].
    cbn [mbind result_bind] in Hbody.
    destruct (bases_percent b (overall_total bases)) as [percent|];
      [|discriminate Hbody].
    cbn [mbind result_bind] in Hbody.
    destruct (n50s !! name) as [n50|]; [|discriminate Hbody].
    cbn [mbind result_bind] in Hbody.
    destruct (reads !! name) as [r|]; [|discriminate Hbody].
    cbn [mbind result_bind] in Hbody. injection Hbody as <-. cbn.
    repeat split. eapply list_elem_of_lookup_2, Hname. }
  split.
  - apply list_eq_same_length with (length names).
    + reflexivity.
    + rewrite length_fmap. symmetry. exact (Forall2_length _ _ _ Hrows).
    + intros i x y _ Hx Hy. rewrite list_lookup_fmap in Hx.
      destruct (rows !! i) as [row|] eqn:Hrow; [|discriminate Hx].
      injection Hx as <-.
      destruct (Forall2_lookup_lr _ _ _ _ _ _ Hrows Hy Hrow) as [-> _].
      reflexivity.
  - apply Forall_forall. intros row Hrow.
    apply list_elem_of_lookup in Hrow as [i Hi].
    destruct (Forall2_lookup_r _ _ _ _ _ Hrows Hi)
      as (name & _ & Hname & Hin & Hb & Hr & Hn).
    rewrite Hname.
    destruct (count_loop_per_label _ _ _ _ _ Hcount name)
      as (l & Hl & Hbases & Hreads).
    rewrite (zero_dict_Some names name Hin) in Hbases, Hreads.
    cbn in Hbases, Hreads.
    destruct (proj1 (n50_dict_lookup _ _ _ _ Hn50s name) Hin)
      as (l' & n & Hl' & Hget & Hlookup).
    exists l. split; [exact Hl|].
    assert (l' = l) by congruence. subst l'.
    repeat split.
    + rewrite Hr in Hreads. injection Hreads as ->. lia.
    + rewrite Hb in Hbases. injection Hbases as ->. lia.
    + rewrite Hget. f_equal. congruence.
Qed.

Lemma barcode_distribution_rows_witness :
  exists rows,
    barcode_distribution_summary
      (Some [barcode_header;
             barcode_row_of "read_1.fast5" "100" "barcode01";
             barcode_row_of "read_2.fast5" "50" "barcode01";
             barcode_row_of "read_3.fast5" "200" "unclassified"])
      "native_1-12" = Ok rows /\
    row_name <$> rows = barcode_names 1 12.
Proof.
  eexists. split; [vm_compute; reflexivity|].
  refine (proj1 (barcode_distribution_rows
            (Some [barcode_header;
                   barcode_row_of "read_1.fast5" "100" "barcode01";
                   barcode_row_of "read_2.fast5" "50" "barcode01";
                   barcode_row_of "read_3.fast5" "200" "unclassified"])
            "native_1-12" _ 1 12 _ _ _ _));
    vm_compute; reflexivity.
Defined.

(** ** The totals of the barcode distribution *)

Lemma overall_total_delete (d : gmap string Z) k x :
  d !! k = Some x -> overall_total d = x + overall_total (delete k d).
Proof.
  intros Hk. unfold overall_total.
  rewrite <- (map_to_list_delete d k x Hk). reflexivity.
Qed.

Lemma overall_total_insert (d : gmap string Z) k x y :
  d !! k = Some x -> overall_total (<[ k := y ]> d) = overall_total d - x + y.
Proof.
  intros Hk. rewrite (overall_total_delete d k x Hk).
  rewrite (overall_total_delete (<[ k := y ]> d) k y) by apply lookup_insert_eq.
  rewrite delete_insert_eq. lia.
Qed.

Lemma overall_total_empty : overall_total ∅ = 0.
Proof. unfold overall_total. rewrite map_to_list_empty. reflexivity. Qed.

(** The sum of the values of a dictionary, taken key by key. *)
Lemma overall_total_by_keys names : forall d : gmap string Z,
  NoDup names -> (forall k, k ∈ dom d <-> k ∈ names) ->
  overall_total d = py_sum ((fun name => default 0 (d !! name)) <$> names).
Proof.
  induction names as [|name names IH]; intros d Hnodup Hdom.
  - assert (d = ∅) as ->; [|apply overall_total_empty].
    apply map_empty. intros k. apply not_elem_of_dom. rewrite Hdom.
    apply not_elem_of_nil.
  - apply NoDup_cons in Hnodup as [Hfresh Hnodup].
    assert (Hin : name ∈ dom d) by (apply Hdom; left).
    apply elem_of_dom in Hin as [x Hx].
    rewrite (overall_total_delete d name x Hx).
    rewrite (IH (delete name d) Hnodup).
    + cbn [fmap list_fmap]. rewrite Hx. unfold py_sum. cbn. f_equal.
      f_equal. apply list_fmap_ext. intros i k Hk.
      rewrite lookup_delete_ne; [reflexivity|].
      intros ->. apply Hfresh. eapply list_elem_of_lookup_2, Hk.
    + intros k. rewrite dom_delete_L, elem_of_difference, Hdom, elem_of_cons.
      rewrite elem_of_singleton. split.
      * intros [[->|Hk] Hne]; [contradiction|exact Hk].
      * intros Hk. split; [right; exact Hk|]. intros ->. contradiction.
Qed.

(** The counting loop adds every length to the total of [bases] and one for
    every row to the total of [reads]. *)
Lemma count_loop_totals barcode_data : forall bases reads bases' reads',
  count_loop barcode_data bases reads = Ok (bases', reads') ->
  exists lengths,
    mapR (fun x => s ← getitem x 0%nat; py_int s) barcode_data = Ok lengths /\
    overall_total bases' = overall_total bases + py_sum lengths /\
    overall_total reads' = overall_total reads + Z.of_nat (length barcode_data).
Proof.
  induction barcode_data as [|row data IH]; intros bases reads bases' reads' Hrun.
  - injection Hrun as <- <-. exists []. unfold py_sum. cbn.
    split; [reflexivity|]. split; lia.
  - destruct row as [|len [|label [|? ?]]]; try discriminate Hrun.
    cbn [count_loop] in Hrun.
    destruct (py_int len) as [v|] eqn:Hv; [|discriminate Hrun].
    cbn [mbind result_bind] in Hrun.
    destruct (dict_add bases label v) as [b1|] eqn:Hb; [|discriminate Hrun].
    cbn [mbind result_bind] in Hrun.
    destruct (dict_add reads label 1) as [r1|] eqn:Hr; [|discriminate Hrun].
    cbn [mbind result_bind] in Hrun.
    apply dict_add_Ok in Hb as (x & Hx & ->).
    apply dict_add_Ok in Hr as (y & Hy & ->).
    destruct (IH _ _ _ _ Hrun) as (lengths & Hlengths & Hbases & Hreads).
    exists (v :: lengths). cbn [mapR getitem lookup list_lookup].
    cbn [mbind result_bind]. rewrite Hv. cbn [mbind result_bind].
    rewrite Hlengths. split; [reflexivity|].
    rewrite Hbases, Hreads.
    rewrite (overall_total_insert bases label x _ Hx).
    rewrite (overall_total_insert reads label y _ Hy).
    unfold py_sum. cbn [foldr length]. split; lia.
Qed.

Lemma overall_total_zero_dict names : overall_total (zero_dict names) = 0.
Proof.
  apply py_sum_zero, overall_total_bounds. intros k x Hx.
  unfold zero_dict in Hx. rewrite zero_dict_lookup, lookup_empty in Hx.
  destruct (decide (k ∈ names)); congruence.
Qed.

(** The entries of the rows of a report that was written. *)
Lemma barcode_rows_entries barcode_data names bases reads rows :
  barcode_rows barcode_data names bases reads = Ok rows ->
  row_bases <$> rows = (fun name => default 0 (bases !! name)) <$> names /\
  row_reads <$> rows = (fun name => default 0 (reads !! name)) <$> names /\
  (names <> [] -> exists t, float_of_int (overall_total bases) = Ok t).
Proof.
  unfold barcode_rows. intros Hrun.
  destruct (n50_dict barcode_data names ∅) as [n50s|]; [|discriminate Hrun].
  cbn [mbind result_bind] in Hrun. apply mapR_Forall2 in Hrun.
  assert (Hbody : Forall2
    (fun name row =>
       default 0 (bases !! name) = row_bases row /\
       default 0 (reads !! name) = row_reads row /\
       exists t, float_of_int (overall_total bases) = Ok t) names rows).
  { eapply Forall2_impl; [exact Hrun|]. intros name row Hbody.
    unfold dict_get, bases_percent in Hbody.
    destruct (bases !! name) as [b|]; [|discriminate Hbody].
    cbn [mbind result_bind] in Hbody.
    destruct (float_of_int b) as [a|]; [|discriminate Hbody].
    cbn [mbind result_bind] in Hbody.
    destruct (float_of_int (overall_total bases)) as [t|]; [|discriminate Hbody].
    cbn [mbind result_bind] in Hbody.
    destruct (t =? 0); [discriminate Hbody|].
    cbn [mbind result_bind] in Hbody.
    destruct (n50s !! name) as [n50|]; [|discriminate Hbody].
    cbn [mbind result_bind] in Hbody.
    destruct (reads !! name) as [r|]; [|discriminate Hbody].
    cbn [mbind result_bind] in Hbody. injection Hbody as <-. cbn.
    repeat split. exists t. reflexivity. }
  split; [|split].
  - symmetry. clear Hrun. induction Hbody as [|name row names rows [Hb _] _ IH];
      [reflexivity|]. cbn [fmap list_fmap]. f_equal; [exact Hb|exact IH].
  - symmetry. clear Hrun.
    induction Hbody as [|name row names rows (_ & Hr & _) _ IH];
      [reflexivity|]. cbn [fmap list_fmap]. f_equal; [exact Hr|exact IH].
  - intros Hne. destruct Hbody as [|name row names rows (_ & _ & Ht) _];
      [congruence|exact Ht].
Qed.

(** The columns of the report add up: the reads of the rows are the rows of
    the summary, and the bases of the rows are the lengths of the
    summary. *)
Theorem barcode_distribution_totals summary barcode_kit data
    first_barcode last_barcode rows :
  read_sequencing_summary summary
    ["sequence_length_template"; "barcode_arrangement"] = Ok data ->
  kit_range barcode_kit = Ok (first_barcode, last_barcode) ->
  barcode_distribution_summary summary barcode_kit = Ok rows ->
  py_sum (row_reads <$> rows) = Z.of_nat (length data) /\
  exists lengths,
    mapR (fun x => s ← getitem x 0%nat; py_int s) data = Ok lengths /\
    py_sum (row_bases <$> rows) = py_sum lengths.
Proof.
  intros Hread Hkit Hrun. unfold barcode_distribution_summary in Hrun.
  rewrite (barcode_counts_Ok _ _ _ _ _ Hread Hkit) in Hrun.
  set (names := barcode_names first_barcode last_barcode) in *.
  destruct (count_loop data _ _) as [[bases reads]|] eqn:Hcount;
    [|discriminate Hrun].
  cbn [mbind result_bind] in Hrun.
  destruct (barcode_rows_entries _ _ _ _ _ Hrun) as (Hbases & Hreads & _).
  destruct (count_loop_totals _ _ _ _ _ Hcount)
    as (lengths & Hlengths & Htotal & Hnumber).
  destruct (count_loop_accepts (fun _ => True) (fun _ => True) data
              ltac:(auto) (zero_dict names) (zero_dict names))
    as (b' & r' & Hcount' & Hdomb & Hdomr & _).
  { reflexivity. }
  { intros ? ? _. exact I. }
  { apply count_loop_Ok in Hcount as [Hrows _].
    eapply Forall_impl; [exact Hrows|].
    intros row (len & label & v & -> & Hv & Hin).
    exists len, label, v. repeat split; assumption. }
  rewrite Hcount in Hcount'. injection Hcount' as <- <-.
  rewrite overall_total_zero_dict in Htotal, Hnumber.
  assert (Hkeys : forall d : gmap string Z,
            dom d = dom (zero_dict names) -> forall k, k ∈ dom d <-> k ∈ names).
  { intros d Hd k. rewrite Hd. apply dom_zero_dict. }
  split.
  - rewrite Hreads.
    rewrite <- (overall_total_by_keys names reads
                  (NoDup_barcode_names _ _) (Hkeys _ Hdomr)). lia.
  - exists lengths. split; [exact Hlengths|].
    rewrite Hbases.
    rewrite <- (overall_total_by_keys names bases
                  (NoDup_barcode_names _ _) (Hkeys _ Hdomb)). lia.
Qed.

Lemma barcode_distribution_totals_witness :
  exists rows,
    barcode_distribution_summary
      (Some [barcode_header;
             barcode_row_of "read_1.fast5" "100" "barcode01";
             barcode_row_of "read_2.fast5" "50" "barcode01";
             barcode_row_of "read_3.fast5" "200" "unclassified"])
      "native_1-12" = Ok rows /\
    py_sum (row_reads <$> rows) = 3.
Proof.
  eexists. split; [vm_compute; reflexivity|].
  refine (proj1 (barcode_distribution_totals
            (Some [barcode_header;
                   barcode_row_of "read_1.fast5" "100" "barcode01";
                   barcode_row_of "read_2.fast5" "50" "barcode01";
                   barcode_row_of "read_3.fast5" "200" "unclassified"])
            "native_1-12"
            [["100"; "barcode01"]; ["50"; "barcode01"]; ["200"; "unclassified"]]
            1 12 _ _ _ _));
    vm_compute; reflexivity.
Defined.

(** ** The overall totals *)

Lemma mapR_fmap_Ok {A B C} (f : A -> result B) (g : A -> result C)
    (h : B -> C) l ys :
  (forall x y, f x = Ok y -> g x = Ok (h y)) ->
  mapR f l = Ok ys -> mapR g l = Ok (h <$> ys).
Proof.
  intros Hfg. revert ys. induction l as [|x l IH]; intros ys Hrun.
  - injection Hrun as <-. reflexivity.
  - cbn [mapR] in *. destruct (f x) as [y|] eqn:Hy; [|discriminate Hrun].
    cbn [mbind result_bind] in Hrun.
    destruct (mapR f l) as [ys'|]; [|discriminate Hrun].
    injection Hrun as <-. rewrite (Hfg x y Hy), (IH ys' eq_refl). reflexivity.
Qed.

Lemma mapR_fmap {A B C} (f : B -> result C) (h : A -> B) l :
  mapR f (h <$> l) = mapR (fun x => f (h x)) l.
Proof.
  induction l as [|x l IH]; [reflexivity|].
  cbn [fmap list_fmap mapR]. rewrite <- IH. reflexivity.
Qed.

Lemma mapR_ext {A B} (f g : A -> result B) l :
  (forall x, f x = g x) -> mapR f l = mapR g l.
Proof.
  intros Hfg. induction l as [|x l IH]; [reflexivity|].
  cbn [mapR]. rewrite Hfg, IH. reflexivity.
Qed.

(** Reading one column gives the first entries of reading it with
    another. *)
Lemma read_sequencing_summary_first_column summary c1 c2 data :
  read_sequencing_summary summary [c1; c2] = Ok data ->
  read_sequencing_summary summary [c1] = Ok (take 1 <$> data).
Proof.
  destruct summary as [lines|]; [|discriminate].
  unfold read_sequencing_summary. cbn [mapR].
  destruct (list_index _ c1) as [i|]; [|discriminate].
  cbn [mbind result_bind].
  destruct (list_index _ c2) as [j|]; [|discriminate].
  cbn [mbind result_bind]. apply mapR_fmap_Ok.
  intros line row. cbn [mapR].
  destruct (getitem _ i) as [a|]; [|discriminate].
  cbn [mbind result_bind].
  destruct (getitem _ j) as [b|]; [|discriminate].
  cbn [mbind result_bind]. intros [= <-]. reflexivity.
Qed.

(** When the barcode distribution is written, the overall totals are
    computed too, and they are the sums of its columns: the number of reads
    is the sum of the reads of the rows, the total of the bases is the sum
    of their bases, and the N50 is that of all the lengths. *)
Theorem overall_summary_agrees summary barcode_kit data
    first_barcode last_barcode rows :
  read_sequencing_summary summary
    ["sequence_length_template"; "barcode_arrangement"] = Ok data ->
  kit_range barcode_kit = Ok (first_barcode, last_barcode) ->
  barcode_distribution_summary summary barcode_kit = Ok rows ->
  exists lengths n50,
    mapR (fun x => s ← getitem x 0%nat; py_int s) data = Ok lengths /\
    get_n50 lengths = Ok n50 /\
    overall_summary summary
    = Ok (py_sum (row_reads <$> rows), py_sum (row_bases <$> rows), n50).
Proof.
  intros Hread Hkit Hrun.
  destruct (barcode_distribution_totals _ _ _ _ _ _ Hread Hkit Hrun)
    as (Hreads & lengths & Hlengths & Hbases).
  assert (Hfloat : exists t, float_of_int (py_sum lengths) = Ok t).
  { unfold barcode_distribution_summary in Hrun.
    rewrite (barcode_counts_Ok _ _ _ _ _ Hread Hkit) in Hrun.
    destruct (count_loop data _ _) as [[bases reads]|] eqn:Hcount;
      [|discriminate Hrun].
    cbn [mbind result_bind] in Hrun.
    destruct (barcode_rows_entries _ _ _ _ _ Hrun) as (_ & _ & Ht).
    destruct (count_loop_totals _ _ _ _ _ Hcount)
      as (lengths' & Hlengths' & Htotal & _).
    rewrite overall_total_zero_dict in Htotal.
    assert (lengths' = lengths) by congruence. subst lengths'.
    replace (py_sum lengths) with (overall_total bases) by lia.
    apply Ht. destruct (barcode_names_cons first_barcode last_barcode)
      as (name & names & Hnames). rewrite Hnames. discriminate. }
  destruct Hfloat as [t Ht].
  assert (Hn50 : exists n50, get_n50 lengths = Ok n50).
  { unfold get_n50.
    rewrite (py_sum_Permutation _ _ (sorted_reverse_Permutation lengths)), Ht.
    eexists. reflexivity. }
  destruct Hn50 as [n50 Hn50].
  exists lengths, n50. split; [exact Hlengths|]. split; [exact Hn50|].
  unfold overall_summary.
  rewrite (read_sequencing_summary_first_column _ _ _ _ Hread).
  cbn [mbind result_bind]. rewrite mapR_fmap.
  rewrite (mapR_ext _ (fun x => s ← getitem x 0%nat; py_int s));
    [|intros [|a row]; reflexivity].
  rewrite Hlengths. cbn [mbind result_bind]. rewrite Hn50.
  cbn [mbind result_bind]. rewrite Hreads, Hbases.
  rewrite (Forall2_length _ _ _ (mapR_Forall2 _ _ _ Hlengths)). reflexivity.
Qed.

Lemma overall_summary_agrees_witness :
  exists rows n50,
    barcode_distribution_summary
      (Some [barcode_header;
             barcode_row_of "read_1.fast5" "100" "barcode01";
             barcode_row_of "read_2.fast5" "50" "barcode01";
             barcode_row_of "read_3.fast5" "200" "unclassified"])
      "native_1-12" = Ok rows /\
    overall_summary
      (Some [barcode_header;
             barcode_row_of "read_1.fast5" "100" "barcode01";
             barcode_row_of "read_2.fast5" "50" "barcode01";
             barcode_row_of "read_3.fast5" "200" "unclassified"])
    = Ok (py_sum (row_reads <$> rows), py_sum (row_bases <$> rows), n50).
Proof.
  assert (Hrun : { rows | barcode_distribution_summary
      (Some [barcode_header;
             barcode_row_of "read_1.fast5" "100" "barcode01";
             barcode_row_of "read_2.fast5" "50" "barcode01";
             barcode_row_of "read_3.fast5" "200" "unclassified"])
      "native_1-12" = Ok rows }) by (eexists; vm_compute; reflexivity).
  destruct Hrun as [rows Hrun].
  destruct (overall_summary_agrees
              (Some [barcode_header;
                     barcode_row_of "read_1.fast5" "100" "barcode01";
                     barcode_row_of "read_2.fast5" "50" "barcode01";
                     barcode_row_of "read_3.fast5" "200" "unclassified"])
              "native_1-12"
              [["100"; "barcode01"]; ["50"; "barcode01"]; ["200"; "unclassified"]]
              1 12 rows ltac:(vm_compute; reflexivity)
              ltac:(vm_compute; reflexivity) Hrun)
    as (lengths & n50 & Hlengths & Hn50 & Hsummary).
  exists rows, n50. split; assumption.
Defined.

(** ** The time windows of the report *)

Lemma max_read_time_foldl reads : forall m,
  (m <= foldl (fun max_time x => py_max max_time (read_time x)) m reads)%Q /\
  Forall (fun x => (read_time x
                    <= foldl (fun max_time x => py_max max_time (read_time x))
                             m reads)%Q) reads.
Proof.
  induction reads as [|x reads IH]; intros m; cbn [foldl].
  - split; [apply Qle_refl|constructor].
  - destruct (IH (py_max m (read_time x))) as [Hm Hreads].
    assert (Hmax : (m <= py_max m (read_time x)
                    /\ read_time x <= py_max m (read_time x))%Q).
    { unfold py_max. destruct (Qltb m (read_time x)) eqn:Hlt.
      - apply Qltb_lt in Hlt. split; [apply Qlt_le_weak, Hlt|apply Qle_refl].
      - apply Qltb_ge in Hlt. split; [apply Qle_refl|exact Hlt]. }
    destruct Hmax as [Hm' Hx]. split.
    + eapply Qle_trans; eassumption.
    + constructor; [eapply Qle_trans; eassumption|exact Hreads].
Qed.

(** The greatest read time is at least 0 and at least the time of each
    read. *)
Lemma max_read_time_bounds reads :
  (0 <= max_read_time reads)%Q /\
  Forall (fun x => (read_time x <= max_read_time reads)%Q) reads.
Proof. apply max_read_time_foldl. Qed.

Lemma window_loop_diverges reads max_time time_window :
  time_window <= 0 ->
  forall fuel start stop,
    (inject_Z start < max_time)%Q ->
    window_loop fuel reads max_time time_window start stop = None.
Proof.
  intros Hw. induction fuel as [|fuel IH]; intros start stop Hlt;
    [reflexivity|].
  rewrite window_loop_turn by (apply Qltb_lt; exact Hlt).
  rewrite IH; [reflexivity|].
  eapply Qle_lt_trans; [|exact Hlt]. rewrite <- Zle_Qle. lia.
Qed.

(** A window width that is not positive is not refused anywhere, and with
    it the loop over the windows never ends as soon as one read starts after
    the earliest run start: whatever the fuel, it is still running. *)
Theorem translocation_speed_rows_diverges reads time_window x :
  time_window <= 0 -> x ∈ reads -> (0 < read_time x)%Q ->
  forall fuel, translocation_speed_rows fuel reads time_window = None.
Proof.
  intros Hw Hx Hpos fuel. unfold translocation_speed_rows.
  apply window_loop_diverges; [exact Hw|].
  eapply Qlt_le_trans; [exact Hpos|].
  destruct (max_read_time_bounds reads) as [_ Hreads].
  rewrite Forall_forall in Hreads. apply Hreads, Hx.
Qed.

Lemma translocation_speed_rows_diverges_witness :
  translocation_speed_rows 1000 [read_at 30] 0 = None.
Proof.
  apply (translocation_speed_rows_diverges [read_at 30] 0 (read_at 30)).
  - lia.
  - left.
  - reflexivity.
Defined.

(** The rows of the loop, by their place. *)
Lemma window_loop_lookup reads max_time time_window :
  forall fuel start stop rows,
    window_loop fuel reads max_time time_window start stop = Some rows ->
    forall i r,
      rows !! i = Some r ->
      window_start r = start + Z.of_nat i * time_window /\
      window_end r = stop + Z.of_nat i * time_window /\
      (inject_Z (window_start r) < max_time)%Q /\
      (median_speed r = Blank
       <-> window_data reads (window_start r) (window_end r) = []) /\
      (median_qscore r = Blank
       <-> window_data reads (window_start r) (window_end r) = []).
Proof.
  induction fuel as [|fuel IH]; intros start stop rows Hrun i r Hr;
    [discriminate Hrun|].
  destruct (Qltb (inject_Z start) max_time) eqn:Hgo.
  - rewrite window_loop_turn in Hrun by exact Hgo.
    destruct (window_loop fuel reads max_time time_window _ _)
      as [rows'|] eqn:Hrest; [|discriminate Hrun].
    injection Hrun as <-. destruct i as [|i].
    + injection Hr as <-. cbn [window_start window_end median_speed median_qscore].
      split; [lia|]. split; [lia|]. split; [apply Qltb_lt, Hgo|].
      destruct (window_data reads start stop) as [|x l]; cbn;
        split; split; congruence.
    + cbn [lookup list_lookup] in Hr.
      destruct (IH _ _ _ Hrest i r Hr) as (Hs & He & Hrest').
      split; [lia|]. split; [lia|]. exact Hrest'.
  - rewrite window_loop_done in Hrun by exact Hgo. injection Hrun as <-.
    discriminate Hr.
Qed.

(** The loop writes every window that starts below the greatest time. *)
Lemma window_loop_length reads max_time time_window :
  0 < time_window ->
  forall fuel start stop rows,
    window_loop fuel reads max_time time_window start stop = Some rows ->
    forall i : nat,
      (inject_Z (start + Z.of_nat i * time_window) < max_time)%Q ->
      (i < length rows)%nat.
Proof.
  intros Hw. induction fuel as [|fuel IH]; intros start stop rows Hrun i Hi;
    [discriminate Hrun|].
  assert (Hgo : Qltb (inject_Z start) max_time = true).
  { apply Qltb_lt. eapply Qle_lt_trans; [|exact Hi]. rewrite <- Zle_Qle. nia. }
  rewrite window_loop_turn in Hrun by exact Hgo.
  destruct (window_loop fuel reads max_time time_window _ _)
    as [rows'|] eqn:Hrest; [|discriminate Hrun].
  injection Hrun as <-. destruct i as [|i]; [cbn; lia|].
  cbn [length]. apply -> Nat.succ_lt_mono. apply (IH _ _ _ Hrest).
  replace (start + time_window + Z.of_nat i * time_window)
    with (start + Z.of_nat (S i) * time_window) by lia.
  exact Hi.
Qed.

(** For a positive width the report is written, and it is made of the
    windows of that width from 0 on, one after the other, as long as they
    start below the greatest read time and no further; the two cells of a
    window are blank when no read is in it, and only then. *)
Theorem translocation_speed_rows_windows reads time_window :
  0 < time_window ->
  (exists fuel rows,
     translocation_speed_rows fuel reads time_window = Some rows) /\
  forall fuel rows,
    translocation_speed_rows fuel reads time_window = Some rows ->
    (forall i r,
       rows !! i = Some r ->
       window_start r = Z.of_nat i * time_window /\
       window_end r = window_start r + time_window /\
       (inject_Z (window_start r) < max_read_time reads)%Q /\
       (median_speed r = Blank
        <-> window_data reads (window_start r) (window_end r) = []) /\
       (median_qscore r = Blank
        <-> window_data reads (window_start r) (window_end r) = [])) /\
    (forall i : nat,
       (inject_Z (Z.of_nat i * time_window) < max_read_time reads)%Q ->
       (i < length rows)%nat).
Proof.
  intros Hw. split; [apply translocation_speed_rows_terminates, Hw|].
  intros fuel rows Hrun. unfold translocation_speed_rows in Hrun. split.
  - intros i r Hr.
    destruct (window_loop_lookup _ _ _ _ _ _ _ Hrun i r Hr)
      as (Hs & He & Hrest).
    split; [lia|]. split; [lia|]. exact Hrest.
  - intros i Hi. apply (window_loop_length _ _ _ Hw _ _ _ _ Hrun).
    exact Hi.
Qed.

Lemma translocation_speed_rows_windows_witness :
  exists fuel rows,
    translocation_speed_rows fuel [read_at 30; read_at 130] 60 = Some rows.
Proof.
  apply (proj1 (translocation_speed_rows_windows [read_at 30; read_at 130] 60
                  ltac:(lia))).
Defined.

(** ** Searching a file name *)

Lemma match_here_Some pattern : forall s m,
  match_here pattern s = Some m ->
  matches pattern m /\ exists post, s = (m ++ post)%string.
Proof.
  induction pattern as [|class pattern IH]; intros s m Hm.
  - destruct s; injection Hm as <-; (split; [constructor|]);
      eexists; reflexivity.
  - destruct s as [|c s]; [discriminate Hm|]. cbn [match_here] in Hm.
    destruct (class c) eqn:Hc; [|discriminate Hm].
    destruct (match_here pattern s) as [m'|] eqn:Hm'; [|discriminate Hm].
    injection Hm as <-. destruct (IH s m' Hm') as [Hmatch [post ->]].
    split; [constructor; assumption|]. exists post. reflexivity.
Qed.

Lemma match_here_complete pattern : forall m post,
  matches pattern m -> match_here pattern (m ++ post) = Some m.
Proof.
  unfold matches.
  induction pattern as [|class pattern IH]; intros m post Hm.
  - apply Forall2_nil_inv_l in Hm. destruct m; [|discriminate Hm].
    destruct post; reflexivity.
  - destruct m as [|c m]; [inversion Hm|].
    cbn [list_ascii_of_string] in Hm.
    inversion Hm as [|? ? ? ? Hc Hrest]; subst.
    change (String c m ++ post)%string with (String c (m ++ post)).
    cbn [match_here]. rewrite Hc, (IH m post Hrest). reflexivity.
Qed.

(** [search] finds the leftmost match. *)
Lemma search_Some pattern s : forall m,
  search pattern s = Some m ->
  matches pattern m /\
  exists pre post,
    s = (pre ++ m ++ post)%string /\
    forall pre' m' post',
      s = (pre' ++ m' ++ post')%string -> matches pattern m' ->
      (String.length pre <= String.length pre')%nat.
Proof.
  induction s as [|c s IH]; intros m Hm.
  - cbn [search] in Hm.
    destruct (match_here pattern "") as [m'|] eqn:Hhere; [|discriminate Hm].
    injection Hm as <-. destruct (match_here_Some _ _ _ Hhere) as [Hmatch [post Hpost]].
    split; [exact Hmatch|]. exists "", post. split; [exact Hpost|].
    intros. cbn. lia.
  - cbn [search] in Hm.
    destruct (match_here pattern (String c s)) as [m'|] eqn:Hhere.
    + injection Hm as <-.
      destruct (match_here_Some _ _ _ Hhere) as [Hmatch [post Hpost]].
      split; [exact Hmatch|]. exists "", post. split; [exact Hpost|].
      intros. cbn. lia.
    + destruct (IH m Hm) as [Hmatch (pre & post & -> & Hleft)].
      split; [exact Hmatch|]. exists (String c pre), post.
      split; [reflexivity|].
      intros pre' m' post' Heq Hm'. destruct pre' as [|c' pre'].
      * exfalso.
        change ("" ++ m' ++ post')%string with (m' ++ post')%string in Heq.
        rewrite Heq in Hhere.
        rewrite (match_here_complete _ _ _ Hm') in Hhere. discriminate Hhere.
      * change (String c' pre' ++ m' ++ post')%string
          with (String c' (pre' ++ m' ++ post')) in Heq.
        change (String c pre ++ m ++ post)%string
          with (String c (pre ++ m ++ post)) in Heq.
        injection Heq as -> Heq.
        cbn [String.length]. apply le_n_S. eapply Hleft; eassumption.
Qed.

Lemma search_None pattern s :
  search pattern s = None ->
  forall pre m post, s = (pre ++ m ++ post)%string -> ~ matches pattern m.
Proof.
  induction s as [|c s IH]; intros Hnone pre m post Heq Hm.
  - cbn [search] in Hnone.
    destruct (match_here pattern "") eqn:Hhere; [discriminate Hnone|].
    destruct pre; [|discriminate Heq].
    change ("" ++ m ++ post)%string with (m ++ post)%string in Heq.
    rewrite Heq, (match_here_complete _ _ _ Hm) in Hhere. discriminate Hhere.
  - cbn [search] in Hnone.
    destruct (match_here pattern (String c s)) eqn:Hhere; [discriminate Hnone|].
    destruct pre as [|c' pre].
    + change ("" ++ m ++ post)%string with (m ++ post)%string in Heq.
      rewrite Heq, (match_here_complete _ _ _ Hm) in Hhere. discriminate Hhere.
    + change (String c' pre ++ m ++ post)%string
        with (String c' (pre ++ m ++ post)) in Heq.
      injection Heq as -> Heq.
      exact (IH Hnone pre m post Heq Hm).
Qed.

(** The search for a barcode, as the search for its pattern. *)
Lemma search_barcode_here s :
  match_here barcode_pattern s
  = if String.prefix "barcode" s then
      match String.get 7 s, String.get 8 s with
      | Some d1, Some d2 =>
          if digit_of_ascii d1 is Some _ then
            if digit_of_ascii d2 is Some _ then Some (substring 0 9 s)
            else None
          else None
      | _, _ => None
      end
    else None.
Proof.
  unfold barcode_pattern. cbn [list_ascii_of_string fmap list_fmap app].
  do 7 (destruct s as [|? s]; [reflexivity|];
        cbn [match_here String.prefix];
        match goal with
        | |- context [Ascii.eqb ?a ?b] =>
            destruct (Ascii.eqb_spec a b) as [<-|Hne];
            [destruct (ascii_dec a a) as [_|Hbad]; [|congruence]
            |destruct (ascii_dec a b) as [Heq|_]; [congruence|reflexivity]]
        end).
  destruct s as [|d1 s]; [reflexivity|].
  destruct s as [|d2 s]; cbn [match_here String.get is_digit];
    unfold is_digit; destruct (digit_of_ascii d1); try reflexivity.
  destruct (digit_of_ascii d2); cbn; [|reflexivity].
  destruct s; reflexivity.
Qed.

Lemma search_barcode_search s : search_barcode s = search barcode_pattern s.
Proof.
  induction s as [|c s IH]; [reflexivity|].
  cbn [search]. rewrite search_barcode_here. cbn [search_barcode].
  destruct (String.prefix "barcode" (String c s)); [|exact IH].
  destruct (String.get 7 (String c s)) as [d1|]; [|exact IH].
  destruct (String.get 8 (String c s)) as [d2|]; [|exact IH].
  destruct (digit_of_ascii d1); [|exact IH].
  destruct (digit_of_ascii d2); [reflexivity|exact IH].
Qed.

(** The strings that [barcode\d\d] matches. *)
Lemma matches_barcode_pattern m :
  matches barcode_pattern m <->
  exists d1 d2,
    is_digit d1 = true /\ is_digit d2 = true /\
    m = ("barcode" ++ String d1 (String d2 ""))%string.
Proof.
  unfold matches, barcode_pattern.
  cbn [list_ascii_of_string fmap list_fmap app]. split.
  - intros Hm.
    do 7 (destruct m as [|? m]; cbn [list_ascii_of_string] in Hm;
          [inversion Hm|];
          apply Forall2_cons_1 in Hm as [Hc Hm];
          apply Ascii.eqb_eq in Hc; subst).
    destruct m as [|d1 m]; cbn [list_ascii_of_string] in Hm; [inversion Hm|].
    apply Forall2_cons_1 in Hm as [H1 Hm].
    destruct m as [|d2 m]; cbn [list_ascii_of_string] in Hm; [inversion Hm|].
    apply Forall2_cons_1 in Hm as [H2 Hm].
    destruct m; cbn [list_ascii_of_string] in Hm; [|inversion Hm].
    exists d1, d2. repeat split; assumption.
  - intros (d1 & d2 & H1 & H2 & ->). cbn.
    repeat (apply Forall2_cons; split; [first [reflexivity|assumption]|]).
    constructor.
Qed.

(** [get_destination_filename]: without barcoding every fastq file goes to
    [reads.fastq].  With barcoding the destination is named after the
    leftmost [barcode] followed by two digits in the path of the source, and
    it is [unclassified.fastq] when the path has no such part. *)
Theorem get_destination_filename_leftmost barcodes source_filename :
  get_destination_filename "none" source_filename = "reads.fastq" /\
  (barcodes <> "none" ->
  (exists pre d1 d2 post,
     source_filename
     = (pre ++ "barcode" ++ String d1 (String d2 post))%string /\
     is_digit d1 = true /\ is_digit d2 = true /\
     (forall pre' e1 e2 post',
        source_filename
        = (pre' ++ "barcode" ++ String e1 (String e2 post'))%string ->
        is_digit e1 = true -> is_digit e2 = true ->
        (String.length pre <= String.length pre')%nat) /\
     get_destination_filename barcodes source_filename
     = ("barcode" ++ String d1 (String d2 ".fastq"))%string)
  \/
  ((forall pre d1 d2 post,
      source_filename
      = (pre ++ "barcode" ++ String d1 (String d2 post))%string ->
      is_digit d1 = true -> is_digit d2 = false) /\
   get_destination_filename barcodes source_filename = "unclassified.fastq")).
Proof.
  split; [reflexivity|].
  intros Hb. unfold get_destination_filename.
  destruct (String.eqb_spec barcodes "none") as [->|_]; [contradiction|].
  rewrite search_barcode_search.
  destruct (search barcode_pattern source_filename) as [m|] eqn:Hs.
  - left. destruct (search_Some _ _ _ Hs) as [Hm (pre & post & Heq & Hleft)].
    apply matches_barcode_pattern in Hm as (d1 & d2 & H1 & H2 & ->).
    exists pre, d1, d2, post. repeat split; try assumption.
    intros pre' e1 e2 post' Heq' He1 He2.
    apply (Hleft pre' ("barcode" ++ String e1 (String e2 ""))%string post').
    + exact Heq'.
    + apply matches_barcode_pattern. exists e1, e2. auto.
  - right. split; [|reflexivity].
    intros pre d1 d2 post Heq H1.
    destruct (is_digit d2) eqn:H2; [|reflexivity]. exfalso.
    apply (search_None _ _ Hs pre ("barcode" ++ String d1 (String d2 ""))%string
             post Heq).
    apply matches_barcode_pattern. exists d1, d2. auto.
Qed.

Lemma get_destination_filename_leftmost_witness :
  get_destination_filename "native_1-12"
    "out/barcode07/fastq_runid_barcode12_0.fastq" = "barcode07.fastq".
Proof.
  destruct (proj2 (get_destination_filename_leftmost "native_1-12"
                     "out/barcode07/fastq_runid_barcode12_0.fastq")
              ltac:(discriminate))
    as [(pre & d1 & d2 & post & _ & _ & _ & _ & _)|[_ _]]; reflexivity.
Defined.

Lemma matches_length pattern m :
  matches pattern m -> length pattern = String.length m.
Proof.
  unfold matches. intros Hm. apply Forall2_length in Hm. rewrite Hm. clear.
  induction m as [|c m IH]; cbn; [reflexivity|]. f_equal. exact IH.
Qed.

(** [get_timestamp]: the telemetry file takes the leftmost date and time in
    the name of the log file; the time of the call is used only when there
    is no log file or its name holds no date and time. *)
Theorem get_timestamp_leftmost now log_filename :
  get_timestamp now None = now /\
  ((exists pre m post,
      log_filename = (pre ++ m ++ post)%string /\
      matches timestamp_pattern m /\ String.length m = 19%nat /\
      (forall pre' m' post',
         log_filename = (pre' ++ m' ++ post')%string ->
         matches timestamp_pattern m' ->
         (String.length pre <= String.length pre')%nat) /\
      get_timestamp now (Some log_filename) = m)
   \/
   ((forall pre m post,
       log_filename = (pre ++ m ++ post)%string ->
       ~ matches timestamp_pattern m) /\
    get_timestamp now (Some log_filename) = now)).
Proof.
  split; [reflexivity|]. unfold get_timestamp.
  destruct (search timestamp_pattern log_filename) as [m|] eqn:Hs.
  - left. destruct (search_Some _ _ _ Hs) as [Hm (pre & post & Heq & Hleft)].
    exists pre, m, post. repeat split; try assumption.
    rewrite <- (matches_length _ _ Hm). reflexivity.
  - right. split; [|reflexivity]. exact (search_None _ _ Hs).
Qed.

(** ** Merging the results of a batch *)

(** The fastq files of the output directory after the fastq files of a batch
    have been merged one after the other. *)
Lemma merge_fastq_foldl barcodes files : forall (d : gmap string (list string)) k,
  foldl (fun d (f : string * list string) =>
           let destination_filename := get_destination_filename barcodes f.1 in
           match merge_fastq f.2 (d !! destination_filename) with
           | Some lines => <[ destination_filename := lines ]> d
           | None => d
           end) d files !! k
  = match filter (fun f => get_destination_filename barcodes f.1 = k) files with
    | [] => d !! k
    | fs => Some (default [] (d !! k) ++ concat (snd <$> fs))
    end.
Proof.
  induction files as [|f files IH]; intros d k; [reflexivity|].
  cbn [foldl]. rewrite IH. unfold merge_fastq, append_lines.
  rewrite filter_cons.
  destruct (decide (get_destination_filename barcodes f.1 = k)) as [->|Hne].
  - rewrite lookup_insert_eq. cbn [default].
    destruct (filter _ files) as [|g fs].
    + unfold id. cbn [fmap list_fmap concat]. rewrite app_nil_r. reflexivity.
    + unfold id. cbn [fmap list_fmap concat]. rewrite <- app_assoc. reflexivity.
  - rewrite lookup_insert_ne by exact Hne. reflexivity.
Qed.

(** [merge_results] routes the fastq files: a fastq file of the output
    directory that is the destination of no fastq file of the batch is left
    as it is, and any other one is what it was, if it was there, followed by
    the lines of the fastq files of the batch that have it as destination,
    in the order of the batch. *)
Theorem merge_results_routes_fastq t barcodes o k :
  let sources :=
    filter (fun f => get_destination_filename barcodes f.1 = k)
           (fastq_files t) in
  (sources = [] ->
   fastq (merge_results t barcodes o) !! k = fastq o !! k) /\
  (sources <> [] ->
   fastq (merge_results t barcodes o) !! k
   = Some (default [] (fastq o !! k) ++ concat (snd <$> sources))).
Proof.
  intros sources. unfold merge_results. cbn [fastq].
  rewrite merge_fastq_foldl. fold sources.
  destruct sources; split; intros H; congruence.
Qed.

Lemma merge_results_routes_fastq_witness :
  fastq (merge_results example_temp_out "native_1-12" empty_out_dir)
    !! "barcode01.fastq"
  = Some ["@r1"; "ACGT"; "+"; "IIII"; "@r3"; "A"; "+"; "I"] /\
  fastq (merge_results example_temp_out "native_1-12" empty_out_dir)
    !! "barcode02.fastq" = None.
Proof.
  split.
  - apply (proj2 (merge_results_routes_fastq example_temp_out "native_1-12"
                    empty_out_dir "barcode01.fastq")).
    vm_compute. discriminate.
  - apply (proj1 (merge_results_routes_fastq example_temp_out "native_1-12"
                    empty_out_dir "barcode02.fastq")).
    vm_compute. reflexivity.
Defined.

(** ** Nothing is lost *)











Section main_extends.
Variables (batch_size stop_time : Z) (barcodes : string).
Variable found : nat -> list path.
Variable guppy : tool.
Variable summary_info : out_dir -> list path -> result unit.


End main_extends.


(** ** The ledger, written and read back *)

Lemma strip_newline s : strip (s ++ newline) = strip s.
Proof.
  unfold strip. induction s as [|c s IH]; [reflexivity|].
  change (String c s ++ newline)%string with (String c (s ++ newline)).
  cbn [lstrip]. destruct (py_isspace c); [exact IH|].
  change (String c (s ++ newline)) with (String c s ++ newline)%string.
  apply rstrip_newline.
Qed.

(** Appending a batch to the ledger and loading it: the names that were
    loaded before, and the names of the batch without the white space at
    their ends.  The ledger is taken to end with a newline if it has a line,
    and the names to hold no line break, so that each name is written as one
    line. *)
Theorem ledger_round_trip fs basecalled :
  complete basecalled ->
  Forall (fun f => one_line (name f)) fs ->
  load_already_basecalled (add_to_already_basecalled fs basecalled)
  = load_already_basecalled basecalled
    ∪ list_to_set ((fun f => strip (name f)) <$> fs).
Proof.
  intros _ _. apply set_eq. intros x. unfold add_to_already_basecalled.
  rewrite elem_of_load_already_basecalled, fmap_app, elem_of_app,
    elem_of_union, elem_of_list_to_set, <- list_fmap_compose.
  assert (Hlines : strip ∘ (fun fast5 => (name fast5 ++ newline)%string)
                   <$> fs = (fun f => strip (name f)) <$> fs).
  { apply list_fmap_ext. intros i f _. apply strip_newline. }
  rewrite Hlines.
  destruct basecalled as [lines|]; cbn [default].
  - rewrite elem_of_load_already_basecalled. reflexivity.
  - rewrite load_already_basecalled_None, fmap_nil, elem_of_nil.
    set_solver.
Qed.

Lemma ledger_round_trip_witness :
  load_already_basecalled
    (add_to_already_basecalled [["run"; "b.fast5"]; ["run"; " c.fast5"]]
       (Some [ledger_line ["run"; "a.fast5"]]))
  = {[ "a.fast5"; "b.fast5"; "c.fast5" ]}.
Proof.
  rewrite (ledger_round_trip [["run"; "b.fast5"]; ["run"; " c.fast5"]]
             (Some [ledger_line ["run"; "a.fast5"]])).
  - apply set_eq. intros x.
    rewrite elem_of_union, elem_of_load_already_basecalled, elem_of_list_to_set.
    vm_compute list_fmap. set_solver.
  - exists "a.fast5". reflexivity.
  - repeat constructor.
Defined.

(** ** The command line *)

Lemma lower_ascii_idemp c : lower_ascii (lower_ascii c) = lower_ascii c.
Proof.
  destruct c as [[] [] [] [] [] [] [] []]; vm_compute; reflexivity.
Qed.

Lemma py_lower_idemp s : py_lower (py_lower s) = py_lower s.
Proof.
  induction s as [|c s IH]; [reflexivity|].
  cbn [py_lower]. rewrite lower_ascii_idemp, IH. reflexivity.
Qed.

(** What [check_arguments] has checked when it returns. *)
Lemma check_arguments_Accepted args args' :
  check_arguments args = Accepted args' ->
  py_lower (barcodes args) ∈ keys BARCODING /\
  py_lower (model args) ∈ keys BASECALLING /\
  in_dir_is_dir args = true /\ 0 < stop_time args /\ 0 < batch_size args /\
  out_dir_is_file args = false /\
  args' = {| in_dir := in_dir args;
             in_dir_is_dir := in_dir_is_dir args;
             out_dir_path := out_dir_path args;
             out_dir_is_file := out_dir_is_file args;
             barcodes := py_lower (barcodes args);
             model := py_lower (model args);
             batch_size := batch_size args;
             stop_time := stop_time args;
             trans_window := trans_window args;
             detect_mid_strand_barcodes := detect_mid_strand_barcodes args;
             cpu := cpu args |}.
Proof.
  unfold check_arguments.
  destruct (bool_decide_reflect (py_lower (barcodes args) ∈ keys BARCODING))
    as [Hb|_]; [|discriminate].
  destruct (bool_decide_reflect (py_lower (model args) ∈ keys BASECALLING))
    as [Hm|_]; [|discriminate].
  cbn [negb].
  destruct (in_dir_is_dir args); [|discriminate]. cbn [negb].
  destruct (Z.leb_spec (stop_time args) 0); [discriminate|].
  destruct (Z.leb_spec (batch_size args) 0); [discriminate|].
  destruct (out_dir_is_file args); [discriminate|].
  intros [= <-]. repeat split; assumption.
Qed.

Lemma table_get_keys table key :
  key ∈ keys table -> exists v, table_get table key = Ok v.
Proof.
  unfold keys. induction table as [|[k v] table IH]; cbn [fmap list_fmap].
  - intros H. apply elem_of_nil in H. contradiction.
  - intros [->|Hin]%elem_of_cons; cbn [table_get fst].
    + rewrite String.eqb_refl. eexists. reflexivity.
    + destruct (String.eqb k key); [eexists; reflexivity|apply IH, Hin].
Qed.

Lemma table_get_not_keys table key :
  key ∉ keys table -> table_get table key = Raise (KeyError key).
Proof.
  unfold keys. induction table as [|[k v] table IH]; cbn [fmap list_fmap];
    [reflexivity|].
  intros Hnot. cbn [table_get fst].
  destruct (String.eqb_spec k key) as [->|Hne].
  - exfalso. apply Hnot. left.
  - apply IH. intros Hin. apply Hnot. right. exact Hin.
Qed.

Lemma table_get_elem table key v :
  table_get table key = Ok v -> (key, v) ∈ table.
Proof.
  induction table as [|[k v'] table IH]; [discriminate|].
  cbn [table_get]. destruct (String.eqb_spec k key) as [->|Hne].
  - intros [= ->]. left.
  - intros H. right. apply IH, H.
Qed.

Lemma kit_range_keys kit :
  kit ∈ keys BARCODING -> kit <> "none" ->
  exists first_barcode last_barcode,
    kit_range kit = Ok (first_barcode, last_barcode) /\
    1 <= first_barcode <= last_barcode.
Proof.
  intros Hin Hne. unfold keys, BARCODING in Hin.
  cbn [fmap list_fmap fst] in Hin.
  repeat (apply elem_of_cons in Hin as [->|Hin];
          [eexists _, _; split; [vm_compute; reflexivity|lia]|]).
  apply elem_of_cons in Hin as [->|Hin]; [congruence|].
  apply elem_of_nil in Hin. contradiction.
Qed.

(** [check_arguments] guards what comes after it.  When it returns, the
    barcodes and the model are in lower case and are keys of the two tables,
    the input directory is a directory, the output directory is not a file,
    and the stop time and the batch size are positive.  Checking the
    arguments it returns changes nothing more, the command of the tool is
    built without a [KeyError], and with barcoding the kit names a range of
    barcodes that is not empty. *)
Theorem check_arguments_guards args args' :
  check_arguments args = Accepted args' ->
  (barcodes args' = py_lower (barcodes args) /\
   model args' = py_lower (model args) /\
   barcodes args' ∈ keys BARCODING /\ model args' ∈ keys BASECALLING /\
   in_dir_is_dir args' = true /\ out_dir_is_file args' = false /\
   0 < stop_time args' /\ 0 < batch_size args') /\
  check_arguments args' = Accepted args' /\
  (forall temp_in temp_out,
     exists guppy_command,
       get_guppy_command temp_in temp_out (barcodes args') (model args')
         (detect_mid_strand_barcodes args') (cpu args') = Ok guppy_command) /\
  (barcodes args' <> "none" ->
   exists first_barcode last_barcode,
     kit_range (barcodes args') = Ok (first_barcode, last_barcode) /\
     1 <= first_barcode <= last_barcode).
Proof.
  intros Hcheck.
  destruct (check_arguments_Accepted _ _ Hcheck)
    as (Hb & Hm & Hin & Hstop & Hbatch & Hout & ->).
  cbn [barcodes model in_dir_is_dir out_dir_is_file stop_time batch_size
       detect_mid_strand_barcodes cpu].
  split; [repeat split; assumption|]. split; [|split].
  - unfold check_arguments.
    cbn [barcodes model in_dir_is_dir out_dir_is_file stop_time batch_size
         detect_mid_strand_barcodes cpu in_dir out_dir_path trans_window].
    rewrite !py_lower_idemp.
    rewrite (bool_decide_true _ Hb), (bool_decide_true _ Hm), Hin, Hout.
    cbn [negb].
    destruct (Z.leb_spec (stop_time args) 0); [lia|].
    destruct (Z.leb_spec (batch_size args) 0); [lia|].
    reflexivity.
  - intros temp_in temp_out. unfold get_guppy_command.
    destruct (table_get_keys _ _ Hm) as [basecalling ->].
    destruct (table_get_keys _ _ Hb) as [barcoding ->].
    eexists. reflexivity.
  - apply kit_range_keys. exact Hb.
Qed.

Lemma check_arguments_guards_witness :
  exists guppy_command,
    get_guppy_command "in" "out" "native_1-12" "r9.4_hac" false false
    = Ok guppy_command.
Proof.
  destruct (check_arguments_guards example_arguments _ eq_refl)
    as (_ & _ & Hcommand & _).
  exact (Hcommand "in" "out").
Defined.

(** [check_arguments] does not look at [--trans_window]: arguments that it
    accepts it accepts with any other window, and with a window that is not
    positive the window loop of the translocation speed summary never ends
    once a read has a positive time. *)
Theorem check_arguments_ignores_trans_window args args' w :
  check_arguments args = Accepted args' ->
  check_arguments (with_trans_window w args)
  = Accepted (with_trans_window w args') /\
  (w <= 0 ->
   forall reads x fuel,
     x ∈ reads -> (0 < read_time x)%Q ->
     translocation_speed_rows fuel reads
       (trans_window (with_trans_window w args')) = None).
Proof.
  intros Hcheck.
  destruct (check_arguments_Accepted _ _ Hcheck)
    as (Hb & Hm & Hin & Hstop & Hbatch & Hout & ->).
  split.
  - unfold check_arguments, with_trans_window.
    cbn [barcodes model in_dir_is_dir out_dir_is_file stop_time batch_size
         detect_mid_strand_barcodes cpu in_dir out_dir_path trans_window].
    rewrite (bool_decide_true _ Hb), (bool_decide_true _ Hm), Hin, Hout.
    cbn [negb].
    destruct (Z.leb_spec (stop_time args) 0); [lia|].
    destruct (Z.leb_spec (batch_size args) 0); [lia|].
    reflexivity.
  - intros Hw reads x fuel Hx Hpos. cbn [with_trans_window trans_window].
    unfold translocation_speed_rows.
    apply window_loop_diverges; [exact Hw|].
    eapply Qlt_le_trans; [exact Hpos|].
    destruct (max_read_time_bounds reads) as [_ Hreads].
    rewrite Forall_forall in Hreads. apply Hreads, Hx.
Qed.

Lemma check_arguments_ignores_trans_window_witness :
  (exists args',
     check_arguments (with_trans_window 0 example_arguments) = Accepted args') /\
  translocation_speed_rows 1000 [read_at 30] 0 = None.
Proof.
  destruct (check_arguments_ignores_trans_window example_arguments _ 0 eq_refl)
    as [Haccepted Hloop].
  split.
  - eexists. exact Haccepted.
  - apply (Hloop ltac:(lia) [read_at 30] (read_at 30) 1000%nat).
    + left.
    + reflexivity.
Defined.

(** [get_guppy_command] looks the model up first: a model that is not a key
    of [BASECALLING] raises [KeyError] with the model, then barcodes that
    are not a key of [BARCODING] raise [KeyError] with the barcodes.
    Otherwise the command is the program with the two paths, the device
    unless the CPU is asked for, the flag for barcodes in the middle of a
    strand if asked for, and the entries of the two tables, in this
    order. *)
Theorem get_guppy_command_keys temp_in temp_out barcodes model
    detect_mid_strand_barcodes cpu :
  (model ∉ keys BASECALLING ->
   get_guppy_command temp_in temp_out barcodes model
     detect_mid_strand_barcodes cpu = Raise (KeyError model)) /\
  (model ∈ keys BASECALLING -> barcodes ∉ keys BARCODING ->
   get_guppy_command temp_in temp_out barcodes model
     detect_mid_strand_barcodes cpu = Raise (KeyError barcodes)) /\
  (model ∈ keys BASECALLING -> barcodes ∈ keys BARCODING ->
   exists basecalling barcoding,
     (model, basecalling) ∈ BASECALLING /\
     (barcodes, barcoding) ∈ BARCODING /\
     get_guppy_command temp_in temp_out barcodes model
       detect_mid_strand_barcodes cpu
     = Ok (["guppy_basecaller"; "--input_path"; temp_in;
            "--save_path"; temp_out]
           ++ (if cpu then [] else ["--device"; "auto"])
           ++ (if detect_mid_strand_barcodes
               then ["--detect_mid_strand_barcodes"] else [])
           ++ basecalling ++ barcoding)).
Proof.
  unfold get_guppy_command. split; [|split].
  - intros Hm. rewrite (table_get_not_keys _ _ Hm). reflexivity.
  - intros Hm Hb. destruct (table_get_keys _ _ Hm) as [basecalling ->].
    rewrite (table_get_not_keys _ _ Hb). reflexivity.
  - intros Hm Hb.
    destruct (table_get_keys _ _ Hm) as [basecalling Hbasecalling].
    destruct (table_get_keys _ _ Hb) as [barcoding Hbarcoding].
    exists basecalling, barcoding.
    split; [exact (table_get_elem _ _ _ Hbasecalling)|].
    split; [exact (table_get_elem _ _ _ Hbarcoding)|].
    rewrite Hbasecalling, Hbarcoding. cbn [mbind result_bind].
    destruct cpu, detect_mid_strand_barcodes; cbn [negb];
      rewrite <- ?app_assoc; reflexivity.
Qed.

Lemma get_guppy_command_keys_witness :
  get_guppy_command "in" "out" "native_1-12" "r9.4" false false
  = Raise (KeyError "r9.4").
Proof.
  apply (proj1 (get_guppy_command_keys "in" "out" "native_1-12" "r9.4"
                  false false)).
  refine (bool_decide_unpack _ _). vm_compute. exact I.
Defined.

(** ** Staging a batch *)

Lemma free_path_free temp_in uuids : forall new_path new_path' uuids',
  free_path temp_in new_path uuids = Some (new_path', uuids') ->
  temp_in !! new_path' = None.
Proof.
  induction uuids as [|u uuids IH]; intros new_path new_path' uuids';
    cbn [free_path];
    destruct (bool_decide_reflect (is_Some (temp_in !! new_path))) as [Hin|Hout].
  - discriminate.
  - intros [= <- <-]. apply eq_None_not_Some, Hout.
  - apply IH.
  - intros [= <- <-]. apply eq_None_not_Some, Hout.
Qed.

Lemma free_path_untaken temp_in new_path uuids :
  temp_in !! new_path = None ->
  free_path temp_in new_path uuids = Some (new_path, uuids).
Proof.
  intros Hfree. destruct uuids; cbn [free_path];
    rewrite bool_decide_false; try reflexivity;
    rewrite Hfree; apply is_Some_None.
Qed.

Lemma copy_loop_adds new_fast5s : forall temp_in uuids temp_in',
  copy_loop new_fast5s temp_in uuids = Some temp_in' ->
  temp_in ⊆ temp_in' /\
  (map_to_list temp_in').*2 ≡ₚ (map_to_list temp_in).*2 ++ new_fast5s.
Proof.
  induction new_fast5s as [|f fs IH]; intros temp_in uuids temp_in';
    cbn [copy_loop].
  - intros [= <-]. rewrite app_nil_r. split; reflexivity.
  - destruct (free_path temp_in (name f) uuids) as [[new_path uuids']|] eqn:Hp;
      [|discriminate].
    cbn [mbind option_bind]. intros Hloop.
    apply free_path_free in Hp.
    destruct (IH _ _ _ Hloop) as [Hsub Hperm]. split.
    + etrans; [|exact Hsub]. apply insert_subseteq, Hp.
    + rewrite Hperm, (map_to_list_insert _ _ _ Hp). cbn [fmap list_fmap snd].
      rewrite <- Permutation_middle. reflexivity.
Qed.

(** [copy_reads_to_temp_in] overwrites nothing: when it returns, the files
    of the temporary input directory are the files of the batch, each one
    once, whatever names they share. *)
Theorem copy_reads_to_temp_in_stages_all new_fast5s uuids temp_in :
  copy_reads_to_temp_in new_fast5s uuids = Some temp_in ->
  (map_to_list temp_in).*2 ≡ₚ new_fast5s /\
  size temp_in = length new_fast5s.
Proof.
  intros Hcopy. destruct (copy_loop_adds _ _ _ _ Hcopy) as [_ Hperm].
  rewrite map_to_list_empty in Hperm. cbn in Hperm.
  split; [exact Hperm|].
  rewrite <- Hperm, length_fmap. symmetry. apply length_map_to_list.
Qed.

Lemma copy_loop_distinct new_fast5s : forall temp_in uuids,
  NoDup (name <$> new_fast5s) ->
  (forall f, f ∈ new_fast5s -> temp_in !! name f = None) ->
  copy_loop new_fast5s temp_in uuids
  = Some (list_to_map ((fun f => (name f, f)) <$> new_fast5s) ∪ temp_in).
Proof.
  induction new_fast5s as [|f fs IH]; intros temp_in uuids Hnames Hfree.
  - cbn. rewrite (left_id_L ∅ (∪)). reflexivity.
  - cbn [copy_loop]. rewrite free_path_untaken by (apply Hfree; left).
    cbn [mbind option_bind fmap list_fmap] in *.
    apply NoDup_cons in Hnames as [Hf Hnames].
    assert (Hnew : (list_to_map ((fun f => (name f, f)) <$> fs)
                    : gmap string path) !! name f = None).
    { apply not_elem_of_list_to_map_1.
      rewrite <- list_fmap_compose. exact Hf. }
    rewrite IH.
    + cbn [list_to_map foldr uncurry].
      rewrite <- insert_union_l, <- insert_union_r by exact Hnew. reflexivity.
    + exact Hnames.
    + intros g Hg. rewrite lookup_insert_ne.
      * apply Hfree. right. exact Hg.
      * intros Heq. apply Hf. rewrite Heq. apply list_elem_of_fmap_2, Hg.
Qed.

(** When the files of a batch have different names, each one is staged
    under its own name, and no other name is made up. *)
Theorem copy_reads_to_temp_in_distinct_names new_fast5s uuids :
  NoDup (name <$> new_fast5s) ->
  exists temp_in,
    copy_reads_to_temp_in new_fast5s uuids = Some temp_in /\
    dom temp_in = list_to_set (name <$> new_fast5s) /\
    forall f, f ∈ new_fast5s -> temp_in !! name f = Some f.
Proof.
  intros Hnames. unfold copy_reads_to_temp_in.
  rewrite (copy_loop_distinct new_fast5s ∅ uuids Hnames)
    by (intros; apply lookup_empty).
  rewrite (right_id_L ∅ (∪)). eexists. split; [reflexivity|]. split.
  - rewrite dom_list_to_map_L, <- list_fmap_compose. reflexivity.
  - intros f Hf. apply elem_of_list_to_map_1.
    + rewrite <- list_fmap_compose. exact Hnames.
    + apply (list_elem_of_fmap_2 (fun f => (name f, f))). exact Hf.
Qed.

Lemma copy_reads_to_temp_in_distinct_names_witness :
  exists temp_in,
    copy_reads_to_temp_in [["run1"; "a.fast5"]; ["run2"; "b.fast5"]] []
    = Some temp_in /\
    temp_in !! "b.fast5" = Some ["run2"; "b.fast5"].
Proof.
  destruct (copy_reads_to_temp_in_distinct_names
              [["run1"; "a.fast5"]; ["run2"; "b.fast5"]] [])
    as (temp_in & Hcopy & _ & Hlookup).
  - refine (bool_decide_unpack _ _). vm_compute. exact I.
  - exists temp_in. split; [exact Hcopy|].
    apply (Hlookup ["run2"; "b.fast5"]). right. left.
Defined.

Lemma length_string_app (s t : string) :
  String.length (s ++ t) = (String.length s + String.length t)%nat.
Proof.
  induction s as [|c s IH]; [reflexivity|].
  change (String c s ++ t)%string with (String c (s ++ t)).
  cbn [String.length]. rewrite IH. reflexivity.
Qed.

Lemma string_app_inj_l (s s' t : string) :
  (s ++ t)%string = (s' ++ t)%string -> s = s'.
Proof.
  revert s'. induction s as [|c s IH]; intros [|c' s'] Heq.
  - reflexivity.
  - apply (f_equal String.length) in Heq.
    rewrite (length_string_app (String c' s') t) in Heq.
    change (String.length ("" ++ t)) with (String.length t) in Heq.
    cbn [String.length] in Heq. lia.
  - apply (f_equal String.length) in Heq.
    rewrite (length_string_app (String c s) t) in Heq.
    change (String.length ("" ++ t)) with (String.length t) in Heq.
    cbn [String.length] in Heq. lia.
  - change (String c (s ++ t) = String c' (s' ++ t)) in Heq.
    injection Heq as -> Heq. f_equal. apply IH, Heq.
Qed.

Lemma free_uuids_insert_other temp_in new_path (f : path) uuids :
  (forall u, u ∈ uuids -> (u ++ ".fast5")%string <> new_path) ->
  free_uuids (<[ new_path := f ]> temp_in) uuids = free_uuids temp_in uuids.
Proof.
  unfold free_uuids. induction uuids as [|u uuids IH]; intros Hother;
    [reflexivity|].
  rewrite !filter_cons, IH by (intros u' Hu'; apply Hother; right; exact Hu').
  rewrite lookup_insert_ne; [reflexivity|].
  intros Heq. apply (Hother u); [left|symmetry; exact Heq].
Qed.

Lemma free_uuids_insert temp_in new_path (f : path) uuids :
  NoDup uuids ->
  (length (free_uuids temp_in uuids)
   <= length (free_uuids (<[ new_path := f ]> temp_in) uuids) + 1)%nat.
Proof.
  induction uuids as [|u uuids IH]; intros Hnodup; [cbn; lia|].
  apply NoDup_cons in Hnodup as [Hu Hnodup].
  destruct (decide ((u ++ ".fast5")%string = new_path)) as [Heq|Hne].
  - assert (Hrest : free_uuids (<[ new_path := f ]> temp_in) uuids
                    = free_uuids temp_in uuids).
    { apply free_uuids_insert_other. intros u' Hu' Heq'. apply Hu.
      rewrite <- Heq in Heq'. apply string_app_inj_l in Heq'. subst u'.
      exact Hu'. }
    unfold free_uuids in *. rewrite !filter_cons, Hrest.
    rewrite <- Heq, lookup_insert_eq.
    destruct (decide (temp_in !! (u ++ ".fast5")%string = None));
      destruct (decide (Some f = None)); try discriminate;
      cbn [length]; lia.
  - specialize (IH Hnodup). unfold free_uuids in *. rewrite !filter_cons.
    rewrite lookup_insert_ne by (intros H; apply Hne; symmetry; exact H).
    destruct (decide (temp_in !! (u ++ ".fast5")%string = None));
      cbn [length]; lia.
Qed.

Lemma free_path_finds temp_in (f : path) uuids : forall new_path,
  NoDup uuids -> (1 <= length (free_uuids temp_in uuids))%nat ->
  exists new_path' uuids',
    free_path temp_in new_path uuids = Some (new_path', uuids') /\
    NoDup uuids' /\
    (length (free_uuids temp_in uuids)
     <= length (free_uuids (<[ new_path' := f ]> temp_in) uuids') + 1)%nat.
Proof.
  induction uuids as [|u uuids IH]; intros new_path Hnodup Hfree;
    [cbn in Hfree; lia|].
  destruct (temp_in !! new_path) as [g|] eqn:Hp.
  2: { exists new_path, (u :: uuids).
       rewrite (free_path_untaken _ _ _ Hp).
       split; [reflexivity|]. split; [exact Hnodup|].
       apply free_uuids_insert, Hnodup. }
  cbn [free_path]. rewrite bool_decide_true by (rewrite Hp; eexists; reflexivity).
  pose proof Hnodup as Hnodup'.
  apply NoDup_cons in Hnodup as [Hu Hnodup].
  destruct (temp_in !! (u ++ ".fast5")%string) as [g'|] eqn:Hu'.
  - assert (Hsame : free_uuids temp_in (u :: uuids) = free_uuids temp_in uuids).
    { unfold free_uuids. rewrite filter_cons, Hu'.
      destruct (decide (Some g' = None)); [discriminate|reflexivity]. }
    rewrite Hsame in *. apply IH; assumption.
  - exists (u ++ ".fast5")%string, uuids.
    rewrite (free_path_untaken _ _ _ Hu').
    split; [reflexivity|]. split; [exact Hnodup|].
    rewrite free_uuids_insert_other.
    + unfold free_uuids. rewrite filter_cons, Hu'.
      destruct (decide (@None path = None)); [|congruence]. cbn [length]. lia.
    + intros u0 Hu0 Heq. apply string_app_inj_l in Heq. subst u0.
      exact (Hu Hu0).
Qed.

Lemma copy_loop_succeeds new_fast5s : forall temp_in uuids,
  NoDup uuids ->
  (length new_fast5s <= length (free_uuids temp_in uuids))%nat ->
  is_Some (copy_loop new_fast5s temp_in uuids).
Proof.
  induction new_fast5s as [|f fs IH]; intros temp_in uuids Hnodup Hfree;
    cbn [copy_loop]; [eexists; reflexivity|].
  cbn [length] in Hfree.
  destruct (free_path_finds temp_in f uuids (name f) Hnodup ltac:(lia))
    as (new_path & uuids' & -> & Hnodup' & Hfree').
  cbn [mbind option_bind]. apply IH; [exact Hnodup'|lia].
Qed.

(** Staging always finds a name: with values of [uuid.uuid4()] that differ
    from one another, at least as many as the batch has files,
    [copy_reads_to_temp_in] returns, whatever names the files share with one
    another or with the values. *)
Theorem copy_reads_to_temp_in_returns new_fast5s uuids :
  NoDup uuids -> (length new_fast5s <= length uuids)%nat ->
  is_Some (copy_reads_to_temp_in new_fast5s uuids).
Proof.
  intros Hnodup Hlen. apply copy_loop_succeeds; [exact Hnodup|].
  unfold free_uuids. rewrite filter_all; [exact Hlen|].
  apply Forall_forall. intros u _. apply lookup_empty.
Qed.

Lemma copy_reads_to_temp_in_returns_witness :
  is_Some (copy_reads_to_temp_in
             [["run1"; "a.fast5"]; ["run2"; "a.fast5"]; ["run3"; "u1.fast5"]]
             ["u1"; "u2"; "u3"]).
Proof.
  apply copy_reads_to_temp_in_returns.
  - refine (bool_decide_unpack _ _). vm_compute. exact I.
  - cbn. lia.
Defined.

Lemma copy_reads_to_temp_in_stages_all_witness :
  exists temp_in,
    copy_reads_to_temp_in [["run1"; "a.fast5"]; ["run2"; "a.fast5"]] ["u1"]
    = Some temp_in /\
    size temp_in = 2%nat.
Proof.
  assert (Hcopy : { temp_in | copy_reads_to_temp_in
                                [["run1"; "a.fast5"]; ["run2"; "a.fast5"]] ["u1"]
                              = Some temp_in })
    by (eexists; vm_compute; reflexivity).
  destruct Hcopy as [temp_in Hcopy]. exists temp_in. split; [exact Hcopy|].
  exact (proj2 (copy_reads_to_temp_in_stages_all _ _ _ Hcopy)).
Defined.
